(** * Verification of the file-dash-wizard ingestion and tracking code

    Shallow embedding of
    - [supabase/functions/upload-excel/index.ts]: the [Deno.serve] handler
      (file type validation, the line-based CSV path, the SheetJS path);
    - [src/components/FileUpload.tsx]: [fetchScrapRecords], the polling
      [useEffect] with its [setInterval] timer, and [uploadFile].

    Strings are modelled as Rocq [string]s of 8-bit characters; JavaScript's
    [trim] is modelled on the ASCII white-space characters. *)

From Stdlib Require Import String Ascii List Bool Arith Lia ZArith.
From Stdlib Require Import Numbers.DecimalString Numbers.DecimalNat.
Import ListNotations.
Open Scope string_scope.
Open Scope list_scope.

(* ------------------------------------------------------------------ *)
(** ** JavaScript values and string operations *)

Module JS.

(** The values that the handler stores in a record object: CSV cells are
    strings, SheetJS cells are strings, numbers and booleans, and missing
    cells (array holes or reads past the end) are [undefined]. *)
Inductive jval :=
| JStr (s : string)
| JNum (z : Z)
| JBool (b : bool)
| JNull
| JUndef.

(** JavaScript truthiness ([x || y] keeps [x] when [x] is truthy). *)
Definition truthy (v : jval) : bool :=
  match v with
  | JStr s => negb (String.eqb s EmptyString)
  | JNum z => negb (Z.eqb z 0)
  | JBool b => b
  | JNull | JUndef => false
  end.

Definition or (x y : jval) : jval := if truthy x then x else y.

(** [String(v)]. *)
Definition to_string (v : jval) : string :=
  match v with
  | JStr s => s
  | JNum z => NilEmpty.string_of_int (Z.to_int z)
  | JBool true => "true"
  | JBool false => "false"
  | JNull => "null"
  | JUndef => "undefined"
  end.

(** White space removed by [String.prototype.trim] (ASCII part). *)
Definition is_ws (c : ascii) : bool :=
  match nat_of_ascii c with
  | 9 | 10 | 11 | 12 | 13 | 32 => true
  | _ => false
  end.

Fixpoint trim_start (s : string) : string :=
  match s with
  | EmptyString => EmptyString
  | String c r => if is_ws c then trim_start r else s
  end.

Fixpoint rev_str (s : string) : string :=
  match s with
  | EmptyString => EmptyString
  | String c r => rev_str r ++ String c EmptyString
  end.

Definition trim_end (s : string) : string := rev_str (trim_start (rev_str s)).

Definition trim (s : string) : string := trim_end (trim_start s).

(** [s.split(c)] for a one-character separator: the pieces between the
    occurrences of [c], including empty ones; the empty string splits into one empty piece. *)
Fixpoint split (c : ascii) (s : string) : list string :=
  match s with
  | EmptyString => [EmptyString]
  | String d r =>
      if Ascii.eqb d c then EmptyString :: split c r
      else match split c r with
           | [] => [String d EmptyString]
           | p :: ps => String d p :: ps
           end
  end.

Definition quote : ascii := ascii_of_nat 34.

(** [s.replace(/Q/g, empty)], Q being the double-quote character. *)
Fixpoint remove_quotes (s : string) : string :=
  match s with
  | EmptyString => EmptyString
  | String c r =>
      if Ascii.eqb c quote then remove_quotes r else String c (remove_quotes r)
  end.

(** [s.endsWith(suffix)]. *)
Definition ends_with (suffix s : string) : bool :=
  Nat.leb (String.length suffix) (String.length s) &&
  String.eqb (substring (String.length s - String.length suffix) (String.length suffix) s) suffix.

(** A JavaScript object as its own properties in insertion order;
    [obj[k] = v] overwrites an existing property in place and appends a
    new one at the end. *)
Definition obj := list (string * jval).

Fixpoint set (o : obj) (k : string) (v : jval) : obj :=
  match o with
  | [] => [(k, v)]
  | (k', v') :: r => if String.eqb k k' then (k, v) :: r else (k', v') :: set r k v
  end.

Fixpoint get (o : obj) (k : string) : jval :=
  match o with
  | [] => JUndef
  | (k', v') :: r => if String.eqb k k' then v' else get r k
  end.

(** Array-index keys (0, 1, ... as decimal strings without leading zeros, below 2^32-1)
    are enumerated first, in ascending numeric order, by [Object.keys] and
    [JSON.stringify]; the other keys follow in insertion order. *)
Definition digit_val (c : ascii) : option nat :=
  let n := nat_of_ascii c in
  if Nat.leb 48 n && Nat.leb n 57 then Some (n - 48) else None.

Fixpoint digits_val (acc : nat) (s : string) : option nat :=
  match s with
  | EmptyString => Some acc
  | String c r =>
      match digit_val c with
      | Some d => digits_val (acc * 10 + d) r
      | None => None
      end
  end.

Definition array_index (k : string) : option N :=
  match k with
  | EmptyString => None
  | String c r =>
      if Ascii.eqb c "0" then
        (match r with EmptyString => Some 0%N | _ => None end)
      else if Nat.leb (String.length k) 10 then
        match digits_val 0 k with
        | Some n => if (N.of_nat n <? 4294967295)%N then Some (N.of_nat n) else None
        | None => None
        end
      else None
  end.

Fixpoint insert_index (n : N) (k : string) (l : list (N * string)) : list (N * string) :=
  match l with
  | [] => [(n, k)]
  | (m, k') :: r => if (n <=? m)%N then (n, k) :: l else (m, k') :: insert_index n k r
  end.

Definition own_keys (o : obj) : list string :=
  let ks := map fst o in
  let idx := fold_left (fun acc k => match array_index k with
                                     | Some n => insert_index n k acc
                                     | None => acc end) ks [] in
  map snd idx ++ filter (fun k => match array_index k with Some _ => false | None => true end) ks.

(** [a[i]] on an array: [undefined] past the end. *)
Definition aget (a : list jval) (i : nat) : jval := nth i a JUndef.

(** [headers.forEach((header, index) => { obj[header] = cell(index); })]
    run on the object [o], starting at position [i]. *)
Fixpoint assign_each (o : obj) (i : nat) (hs : list string) (cell : nat -> jval) : obj :=
  match hs with
  | [] => o
  | h :: hs' => assign_each (set o h (cell i)) (S i) hs' cell
  end.

(** The same loop over an array that may have holes ([None]):
    [forEach] skips a hole, and the index still counts it. *)
Fixpoint assign_slots (o : obj) (i : nat) (hs : list (option string)) (cell : nat -> jval) : obj :=
  match hs with
  | [] => o
  | None :: hs' => assign_slots o (S i) hs' cell
  | Some h :: hs' => assign_slots (set o h (cell i)) (S i) hs' cell
  end.

(** The properties [JSON.stringify] writes: [undefined] ones are left out. *)
Definition json_fields (o : obj) : list (string * jval) :=
  filter (fun kv => match snd kv with JUndef => false | _ => true end)
         (map (fun k => (k, get o k)) (own_keys o)).

End JS.

Import JS.

(* ------------------------------------------------------------------ *)
(** ** The CSV path of the upload handler *)

Module Csv.

(** [v.trim().replace(/Q/g, empty)]. *)
Definition clean (s : string) : string := remove_quotes (trim s).

(** [.filter(line => line.trim())]: a line is kept when its trimmed
    text is non-empty. *)
Definition nonblank (l : string) : bool := negb (String.eqb (trim l) EmptyString).

Definition nl : ascii := ascii_of_nat 10.
Definition comma : ascii := ",".

(** [headers.forEach((header, index) => { obj[header] = values[index] || ''; })] *)
Definition row_obj (hs : list string) (values : list string) : obj :=
  assign_each [] 0 hs (fun index => JS.or (aget (map JStr values) index) (JStr EmptyString)).

Definition cells (line : string) : list string := map clean (split comma line).

(** The CSV branch: returns [(headers, parsedData)]. *)
Definition parse (text : string) : list string * list obj :=
  let lines := filter nonblank (split nl text) in
  match lines with
  | [] => ([], [])
  | l0 :: rest =>
      let headers := cells l0 in
      (headers, map (fun l => row_obj headers (cells l)) rest)
  end.

End Csv.

(* ------------------------------------------------------------------ *)
(** ** The spreadsheet path and the whole handler *)

Module Sheet.

(** The grid [XLSX.utils.sheet_to_json(worksheet, { header: 1 })] is a
    list of row arrays. SheetJS does not store an empty cell: it leaves a
    hole in the row array, and it never stores [undefined] itself, so a
    grid entry [JUndef] stands for such a hole (reading it, as [row[index]]
    does, gives [undefined]). *)

(** The callback [h => String(h || '')]: a falsy cell becomes the empty string. *)
Definition header (h : jval) : string := to_string (JS.or h (JStr EmptyString)).

(** [(data[0] as any[]).map(h => String(h || ''))]: [map] does not call
    the callback on a hole and leaves the hole in the result. *)
Definition map_header (h : jval) : option string :=
  match h with JUndef => None | _ => Some (header h) end.

(** [headers.forEach((header, index) => { obj[header] = row[index]; })] *)
Definition row_obj (hs : list (option string)) (row : list jval) : obj :=
  assign_slots [] 0 hs (fun index => aget row index).

Definition parse (data : list (list jval)) : list (option string) * list obj :=
  match data with
  | [] => ([], [])
  | r0 :: rows =>
      let headers := map map_header r0 in
      (headers, map (row_obj headers) rows)
  end.

End Sheet.

Module Handler.

Record file := { name : string; type : string; content : string }.

Inductive request :=
| Options
| Post (form_file : option file).

Inductive response :=
| Cors
| Ok200 (fileName sheetName : string) (totalRows totalColumns : nat)
        (headers : list (option string)) (data preview : list obj)
| Bad400 (error : string)
| Fail500.

Definition validTypes : list string :=
  [ "application/vnd.ms-excel";
    "application/vnd.openxmlformats-officedocument.spreadsheetml.sheet";
    "text/csv" ].

Definition isValidType (f : file) : bool :=
  existsb (String.eqb (type f)) validTypes ||
  ends_with ".xlsx" (name f) || ends_with ".xls" (name f) || ends_with ".csv" (name f).

Definition no_file_msg : string := "No file provided".
Definition invalid_type_msg : string :=
  "Invalid file type. Please upload .xlsx, .xls, or .csv files".

Section WithSheetJS.

(** SheetJS, an external library: [XLSX.read] followed by the choice of
    the first sheet and [sheet_to_json]. [None] is a thrown exception,
    [Some (sheetName, grid)] the first sheet's name and its grid. *)
Variable xlsx_first_sheet : string -> option (string * list (list jval)).

(** The final [return]; [headers] is an array in which a hole ([None])
    is counted by [length] and written [null] by [JSON.stringify]. *)
Definition respond (fileName sheetName : string) (hp : list (option string) * list obj) : response :=
  let '(headers, parsedData) := hp in
  Ok200 fileName sheetName (length parsedData) (length headers) headers
        (firstn 100 parsedData) (firstn 5 parsedData).

(** The same return with the CSV path's headers, an array without holes. *)
Definition result (fileName sheetName : string) (hp : list string * list obj) : response :=
  respond fileName sheetName (map Some (fst hp), snd hp).

(** The [Deno.serve] callback. *)
Definition serve (req : request) : response :=
  match req with
  | Options => Cors
  | Post None => Bad400 no_file_msg
  | Post (Some f) =>
      if negb (isValidType f) then Bad400 invalid_type_msg
      else if ends_with ".csv" (name f) then
        result (name f) "CSV Data" (Csv.parse (content f))
      else
        match xlsx_first_sheet (content f) with
        | None => Fail500
        | Some (sheetName, data) => respond (name f) sheetName (Sheet.parse data)
        end
  end.

End WithSheetJS.

End Handler.

(* ------------------------------------------------------------------ *)
(** ** fetchScrapRecords *)

Module Tracker.

Record ScrapRecord := { id : string; status : string }.

(** A JSON value as [response.json()] returns it: a string, number,
    boolean or [null], an array, or an object given by its properties
    (one per key, as [JSON.parse] makes them). *)
#[warnings="-register-all"] Inductive json :=
| JPrim (v : jval)
| JArr (items : list json)
| JObj (fields : list (string * json)).

(** A record as the backend sends it, and an array of such records. *)
Definition record_json (r : ScrapRecord) : json :=
  JObj [("id", JPrim (JStr (id r))); ("status", JPrim (JStr (status r)))].

Definition snapshot (recs : list ScrapRecord) : json := JArr (map record_json recs).

Fixpoint field (k : string) (fs : list (string * json)) : option json :=
  match fs with
  | [] => None
  | (k', v) :: r => if String.eqb k k' then Some v else field k r
  end.

(** The callback [record => record.status === 'done'] on one element;
    [None] is the [TypeError] thrown when the element is [null] (or
    [undefined]). Any other element without a string [status] gives
    [false]. *)
Definition is_done (e : json) : option bool :=
  match e with
  | JPrim JNull | JPrim JUndef => None
  | JObj fs =>
      Some (match field "status" fs with
            | Some (JPrim (JStr s)) => String.eqb s "done"
            | _ => false
            end)
  | _ => Some false
  end.

(** [Array.prototype.every]: it stops at the first element for which the
    callback returns [false]. *)
Fixpoint every_done (items : list json) : option bool :=
  match items with
  | [] => Some true
  | e :: es =>
      match is_done e with
      | None => None
      | Some false => Some false
      | Some true => every_done es
      end
  end.

(** [data.every(...)]; [None] is a thrown [TypeError]: a body that is
    not an array has no [every] method. *)
Definition all_done (data : json) : option bool :=
  match data with
  | JArr items => every_done items
  | _ => None
  end.

(** The outcome of [fetch(...)] and [response.json()]: [FetchFailed]
    covers a rejected fetch, a non-ok response (thrown before the body is
    read) and a body that is not JSON; [FetchBody data] is a parsed body. *)
Inductive fetch_result :=
| FetchFailed
| FetchBody (data : json).

(** An ok response whose body is an array of records. *)
Definition FetchOk (recs : list ScrapRecord) : fetch_result := FetchBody (snapshot recs).

Inductive toast := ProcessingComplete.

Record state := {
  scrapRecords : json;
  isPolling : bool;
  toasts : list toast
}.

(** Every record of a list has the status [done]. *)
Definition allDone (data : list ScrapRecord) : bool :=
  forallb (fun r => String.eqb (status r) "done") data.

(** [fetchScrapRecords]: the returned [bool] and the state after it.
    [setScrapRecords(data)] runs before [data.every], so a body on which
    [every] throws is stored all the same, and the [catch] returns
    [false]. *)
Definition fetchScrapRecords (st : state) (r : fetch_result) : bool * state :=
  match r with
  | FetchFailed => (false, st)
  | FetchBody data =>
      let st1 := {| scrapRecords := data; isPolling := isPolling st; toasts := toasts st |} in
      match all_done data with
      | Some true =>
          (true, {| scrapRecords := data; isPolling := false;
                    toasts := toasts st1 ++ [ProcessingComplete] |})
      | Some false => (false, st1)
      | None => (false, st1)
      end
  end.

End Tracker.

(* ------------------------------------------------------------------ *)
(** ** The polling [useEffect] as a discrete-time event loop

    One time unit is one second, so [setInterval(..., 2000)] fires at
    every even instant after the effect ran at instant 0. The effect
    issues the initial fetch at once; every timer callback issues one
    more fetch. A fetch issued at [t] for request [k] is handled at
    [t + lat k]; handling it runs [fetchScrapRecords] on the response
    [resp k]. The timer is cleared when the callback sees [allDone]
    ([clearInterval]) or when [isPolling] turns false (the effect's
    cleanup). *)

Module Poll.

Import Tracker.

Inductive event :=
| Issue (k t : nat)
| Complete (k t : nat).

Record sim := {
  now : nat;
  timer_on : bool;
  inflight : list (nat * nat);
  issued : nat;
  tracker : Tracker.state;
  events : list event
}.

Section Loop.

Variable lat : nat -> nat.
Variable resp : nat -> fetch_result.

(** A call [fetchScrapRecords(currentFileId)] sends its request now. *)
Definition issue (s : sim) : sim :=
  let k := issued s in
  {| now := now s; timer_on := timer_on s;
     inflight := inflight s ++ [(k, now s + lat k)];
     issued := S k; tracker := tracker s;
     events := events s ++ [Issue k (now s)] |}.

(** The continuation of request [k] after its response arrived. *)
Definition handle (s : sim) (p : nat * nat) : sim :=
  let k := fst p in
  let '(done, st') := fetchScrapRecords (tracker s) (resp k) in
  {| now := now s;
     timer_on := timer_on s && negb done && isPolling st';
     inflight := inflight s; issued := issued s; tracker := st';
     events := events s ++ [Complete k (now s)] |}.

Definition due (s : sim) (p : nat * nat) : bool := Nat.leb (snd p) (now s).

Definition deliver (s : sim) : sim :=
  let ready := filter (due s) (inflight s) in
  let waiting := filter (fun p => negb (due s p)) (inflight s) in
  fold_left handle ready
    {| now := now s; timer_on := timer_on s; inflight := waiting;
       issued := issued s; tracker := tracker s; events := events s |}.

(** One second passes: responses due by now are handled, then the
    interval callback runs at every even instant while the timer is set. *)
Definition tick (s : sim) : sim :=
  let s1 := deliver {| now := S (now s); timer_on := timer_on s;
                       inflight := inflight s; issued := issued s;
                       tracker := tracker s; events := events s |} in
  if timer_on s1 && Nat.even (now s1) then issue s1 else s1.

(** The effect runs with [isPolling] true and a file id: initial fetch. *)
Definition start (st : Tracker.state) : sim :=
  issue {| now := 0; timer_on := true; inflight := []; issued := 0;
           tracker := st; events := [] |}.

Fixpoint run (st : Tracker.state) (n : nat) : sim :=
  match n with
  | 0 => start st
  | S m => tick (run st m)
  end.

End Loop.

Definition issue_times (ev : list event) : list nat :=
  flat_map (fun e => match e with Issue _ t => [t] | Complete _ _ => [] end) ev.

(** The ordering the specification asks for: request [k+1] is issued
    only after the response of request [k] has been handled. *)
Definition serialized (ev : list event) : Prop :=
  forall k ti, In (Issue (S k) ti) ev ->
  exists tc, In (Complete k tc) ev /\ tc <= ti.

End Poll.

(* ------------------------------------------------------------------ *)
(** ** uploadFile *)

Module Upload.

Inductive toast := Toast (title description : string) (destructive : bool).

(** The network outcome of [fetch(`${API_BASE_URL}/upload/`, ...)]:
    a rejected promise with its error message, or an HTTP response whose
    body is a JSON object, the JSON value [null], or not JSON at all
    ([response.json()] then throws a [SyntaxError] with the given
    message). Any other JSON body (an array, string, number or boolean)
    has none of the properties [detail], [file_id] and [id] the code
    reads, and behaves as [JsonObj []]. *)
Inductive body := JsonObj (o : obj) | JsonNull | NotJson (syntax_error : string).

(** The message of the [TypeError] thrown by reading the property [p] of
    [null] (the wording of V8, the engine of Chrome and Deno). *)
Definition null_read (p : string) : string :=
  "Cannot read properties of null (reading '" ++ p ++ "')".

Inductive upload_result :=
| NetworkError (message : string)
| Http (status : nat) (b : body).

Record ustate := {
  uploadedFile : option string;
  isProcessing : bool;
  uploadSuccess : bool;
  currentFileId : jval;
  isPolling : bool;
  showFilesList : bool;
  toasts : list toast;
  requests : list string
}.

Definition response_ok (status : nat) : bool := Nat.leb 200 status && Nat.leb status 299.

(** [Thrown m]: an error is thrown before [setUploadSuccess(true)];
    [Parsed data]: the body is read; [NullData]: the body is [null], so
    [setUploadSuccess(true)] runs and then [data.file_id] throws. *)
Inductive outcome := Thrown (message : string) | Parsed (data : obj) | NullData.

(** The [try] block up to [const data = await response.json()]:
    [throw new Error(error.detail || 'Upload failed')] sets the message
    to [String(error.detail || 'Upload failed')]. *)
Definition attempt (r : upload_result) : outcome :=
  match r with
  | NetworkError m => Thrown m
  | Http status b =>
      if response_ok status then
        match b with JsonObj o => Parsed o | JsonNull => NullData | NotJson m => Thrown m end
      else
        match b with
        | JsonObj o => Thrown (to_string (JS.or (get o "detail") (JStr "Upload failed")))
        | JsonNull => Thrown (null_read "detail")
        | NotJson m => Thrown m
        end
  end.

Definition upload_request : string := "POST /upload/".
Definition files_request : string := "GET /files/".

(** [uploadFile]; the [finally] block resets [isProcessing]. *)
Definition uploadFile (st : ustate) (r : upload_result) : ustate :=
  match uploadedFile st with
  | None => st
  | Some fname =>
      let reqs := requests st ++ [upload_request] in
      match attempt r with
      | Thrown m =>
          {| uploadedFile := uploadedFile st; isProcessing := false;
             uploadSuccess := uploadSuccess st; currentFileId := currentFileId st;
             isPolling := isPolling st; showFilesList := showFilesList st;
             toasts := toasts st ++
               [Toast "Upload failed"
                      (to_string (JS.or (JStr m) (JStr "Failed to upload the file"))) true];
             requests := reqs |}
      | Parsed data =>
          {| uploadedFile := uploadedFile st; isProcessing := false;
             uploadSuccess := true;
             currentFileId := JS.or (get data "file_id") (get data "id");
             isPolling := true; showFilesList := showFilesList st;
             toasts := toasts st ++
               [Toast "File uploaded successfully"
                      (fname ++ " has been uploaded and processing started") false];
             requests := reqs ++ (if showFilesList st then [files_request] else []) |}
      | NullData =>
          {| uploadedFile := uploadedFile st; isProcessing := false;
             uploadSuccess := true; currentFileId := currentFileId st;
             isPolling := isPolling st; showFilesList := showFilesList st;
             toasts := toasts st ++ [Toast "Upload failed" (null_read "file_id") true];
             requests := reqs |}
      end
  end.

End Upload.

(* ------------------------------------------------------------------ *)
(** ** The rest of [FileUpload]: drop zone, buttons, counters, file list *)

Module UploadUI.

Import Upload.

(** [onDrop]: the first accepted file becomes the selected one. *)
Definition onDrop (st : ustate) (acceptedFiles : list string) : ustate :=
  match acceptedFiles with
  | [] => st
  | file :: _ =>
      {| uploadedFile := Some file; isProcessing := isProcessing st;
         uploadSuccess := false; currentFileId := currentFileId st;
         isPolling := isPolling st; showFilesList := showFilesList st;
         toasts := toasts st ++ [Toast "File ready" (file ++ " is ready to be uploaded") false];
         requests := requests st |}
  end.

(** [removeFile]. *)
Definition removeFile (st : ustate) : ustate :=
  {| uploadedFile := None; isProcessing := isProcessing st;
     uploadSuccess := false; currentFileId := currentFileId st;
     isPolling := isPolling st; showFilesList := showFilesList st;
     toasts := toasts st ++ [Toast "File removed" "You can upload a new file now" false];
     requests := requests st |}.

(** The [Upload File] button is rendered when a file is selected and is
    [disabled={isProcessing || uploadSuccess}]. *)
Definition upload_button_enabled (st : ustate) : bool :=
  match uploadedFile st with
  | None => false
  | Some _ => negb (isProcessing st || uploadSuccess st)
  end.

(** The polling effect runs its body when [isPolling && currentFileId]. *)
Definition polling_active (st : ustate) : bool := isPolling st && truthy (currentFileId st).

(** [{scrapRecords.filter(r => r.status === 'done').length} / {scrapRecords.length}] *)
Definition done_count (recs : list Tracker.ScrapRecord) : nat :=
  length (filter (fun r => String.eqb (Tracker.status r) "done") recs).

End UploadUI.

Module Files.

Import Upload.

Record FileRecord := {
  rid : nat;
  input_filename : string;
  output_filename : option string;
  created_date : string;
  rstatus : string
}.

Record fstate := {
  fileRecords : list FileRecord;
  isLoadingFiles : bool;
  ftoasts : list toast;
  frequests : list string;
  saved : list string   (* names given to [a.download] and clicked *)
}.

(** [${fileId}] for the numeric id. *)
Definition nat_text (n : nat) : string := NilEmpty.string_of_uint (Nat.to_uint n).

(** The outcome of a fetch: a rejected promise, a non-ok response, or an
    ok response whose body was read. *)
Inductive fetch_outcome (A : Type) :=
| Rejected (message : string)
| NotOk
| Body (data : A).
Arguments Rejected {A} message.
Arguments NotOk {A}.
Arguments Body {A} data.

(** [fetchFilesList]. *)
Definition fetchFilesList (st : fstate) (r : fetch_outcome (list FileRecord)) : fstate :=
  let reqs := frequests st ++ [files_request] in
  match r with
  | Body data =>
      {| fileRecords := data; isLoadingFiles := false; ftoasts := ftoasts st;
         frequests := reqs; saved := saved st |}
  | Rejected m =>
      {| fileRecords := fileRecords st; isLoadingFiles := false;
         ftoasts := ftoasts st ++ [Toast "Failed to load files" m true];
         frequests := reqs; saved := saved st |}
  | NotOk =>
      {| fileRecords := fileRecords st; isLoadingFiles := false;
         ftoasts := ftoasts st ++ [Toast "Failed to load files" "Failed to fetch files" true];
         frequests := reqs; saved := saved st |}
  end.

Definition download_request (fileId : nat) : string :=
  "GET /download/output/" ++ nat_text fileId.

(** [downloadFile(fileId, filename)]; the blob body is not modelled. *)
Definition downloadFile (st : fstate) (fileId : nat) (filename : string)
    (r : fetch_outcome unit) : fstate :=
  let reqs := frequests st ++ [download_request fileId] in
  match r with
  | Body _ =>
      {| fileRecords := fileRecords st; isLoadingFiles := isLoadingFiles st;
         ftoasts := ftoasts st ++ [Toast "Download started" ("Downloading " ++ filename) false];
         frequests := reqs; saved := saved st ++ [filename] |}
  | Rejected m =>
      {| fileRecords := fileRecords st; isLoadingFiles := isLoadingFiles st;
         ftoasts := ftoasts st ++ [Toast "Download failed" m true];
         frequests := reqs; saved := saved st |}
  | NotOk =>
      {| fileRecords := fileRecords st; isLoadingFiles := isLoadingFiles st;
         ftoasts := ftoasts st ++ [Toast "Download failed" "Download failed" true];
         frequests := reqs; saved := saved st |}
  end.

Definition output_truthy (o : option string) : bool :=
  match o with Some s => negb (String.eqb s EmptyString) | None => false end.

(** [disabled={record.status !== 'Completed' || !record.output_filename}] *)
Definition download_disabled (rec : FileRecord) : bool :=
  negb (String.eqb (rstatus rec) "Completed") || negb (output_truthy (output_filename rec)).

(** Pressing the download button: nothing when it is disabled, else
    [record.output_filename && downloadFile(record.id, record.output_filename)]. *)
Definition press_download (st : fstate) (rec : FileRecord) (r : fetch_outcome unit) : fstate :=
  if download_disabled rec then st
  else match output_filename rec with
       | Some f => if output_truthy (Some f) then downloadFile st (rid rec) f r else st
       | None => st
       end.

End Files.

(* ------------------------------------------------------------------ *)
(** ** The file details page ([FileDetails], src/unnamed/part_000)

    [toUpperCase] is modelled on ASCII text only: there it maps exactly
    the letters a-z to A-Z. Its full Unicode case mapping, which can
    change the length of a key (the German sharp s becomes SS), is not
    modelled, and properties of the labels are stated for ASCII keys. *)

Module Details.

Record dstate := {
  fileData : option (list obj);
  isLoading : bool;
  dtoasts : list Upload.toast;
  navigations : list string;
  drequests : list string
}.

Definition initial : dstate :=
  {| fileData := None; isLoading := true; dtoasts := []; navigations := []; drequests := [] |}.

Definition data_request (fileId : string) : string := "GET /files/data/" ++ fileId ++ "/".

(** [fetchFileDetail] run by the effect; [fileId] is the route
    parameter ([undefined] is [None]). *)
Definition fetchFileDetail (fileId : option string) (st : dstate)
    (r : Files.fetch_outcome (list obj)) : dstate :=
  match fileId with
  | None => st
  | Some id =>
      if String.eqb id EmptyString then st else
      let reqs := drequests st ++ [data_request id] in
      let fail m := {| fileData := fileData st; isLoading := false;
                       dtoasts := dtoasts st ++ [Upload.Toast "Failed to load file details" m true];
                       navigations := navigations st ++ ["/"]; drequests := reqs |} in
      match r with
      | Files.Body data =>
          {| fileData := Some data; isLoading := false; dtoasts := dtoasts st;
             navigations := navigations st; drequests := reqs |}
      | Files.Rejected m => fail m
      | Files.NotOk => fail "Failed to fetch file details"
      end
  end.

Fixpoint underscores_to_spaces (s : string) : string :=
  match s with
  | EmptyString => EmptyString
  | String c r => String (if Ascii.eqb c "_" then " "%char else c) (underscores_to_spaces r)
  end.

(** [toUpperCase] on one ASCII character. *)
Definition upper_char (c : ascii) : ascii :=
  let n := nat_of_ascii c in
  if Nat.leb 97 n && Nat.leb n 122 then ascii_of_nat (n - 32) else c.

Fixpoint to_upper (s : string) : string :=
  match s with
  | EmptyString => EmptyString
  | String c r => String (upper_char c) (to_upper r)
  end.

(** [key.replace(/_/g, ' ').toUpperCase()] *)
Definition label (key : string) : string := to_upper (underscores_to_spaces key).

(** [value !== null && value !== undefined ? String(value) : '-'] *)
Definition display (v : jval) : string :=
  match v with JNull | JUndef => "-" | _ => to_string v end.

(** [Object.values(row)] shown cell by cell. *)
Definition row_cells (row : obj) : list string := map (fun k => display (get row k)) (own_keys row).

Inductive view :=
| Spinner
| Table (columns : list string) (rows : list (list string))
| NoData.

Definition render (st : dstate) : view :=
  if isLoading st then Spinner else
  match fileData st with
  | Some ((r0 :: _) as rows) => Table (map label (own_keys r0)) (map row_cells rows)
  | _ => NoData
  end.

End Details.

(* ------------------------------------------------------------------ *)
(** ** Concrete inputs and derived notions used by the properties *)

Definition pending_state : Tracker.state :=
  {| Tracker.scrapRecords := Tracker.JArr []; Tracker.isPolling := true; Tracker.toasts := [] |}.

Definition short_row_csv : string := "a,b" ++ String Csv.nl "x".

Definition interior_quote : string := String "a" (String quote "b").

Definition dup_header_csv : string := "x,x" ++ String Csv.nl "1,2".

Definition index_header_csv : string := "b,1" ++ String Csv.nl "2,3".

Definition ragged_sheet : list (list jval) :=
  [[JStr "a"; JStr "b"]; [JNum 1; JNum 2]; [JNum 3]].

Definition gap_sheet : list (list jval) :=
  [[JStr "a"; JUndef; JStr "c"]; [JNum 1; JNum 2; JNum 3]; [JNum 4]].

Definition blank_tail : string := String " " (String Csv.nl EmptyString).

Definition two_rows_csv : string :=
  "name,age" ++ String Csv.nl ("Ada,36" ++ String Csv.nl "Linus,55").

Definition blank_header_csv : string := "a,,b" ++ String Csv.nl "1,2,3".

Definition blank_header_sheet : list (list jval) := [[JStr "a"; JUndef; JNum 0]; [JNum 1]].

Definition empty_csv_file : Handler.file :=
  {| Handler.name := "empty.csv"; Handler.type := "text/csv"; Handler.content := EmptyString |}.

Definition notes_file : Handler.file :=
  {| Handler.name := "notes.txt"; Handler.type := "text/plain"; Handler.content := "a,b" |}.

Definition pending_resp : nat -> Tracker.fetch_result :=
  fun _ => Tracker.FetchOk [{| Tracker.id := "r1"; Tracker.status := "pending" |}].

Definition every_two (T : nat) : list nat := map (fun k => 2 * k) (seq 0 (S (T / 2))).

Definition ready_state : Upload.ustate :=
  {| Upload.uploadedFile := Some "data.csv"; Upload.isProcessing := false;
     Upload.uploadSuccess := false; Upload.currentFileId := JNull;
     Upload.isPolling := false; Upload.showFilesList := false;
     Upload.toasts := []; Upload.requests := [] |}.

Definition bad_header_reply : Upload.upload_result :=
  Upload.Http 400 (Upload.JsonObj [("reason", JStr "bad header")]).

(** The message [uploadFile] shows for a non-ok response with a JSON body. *)
Definition rejection_message (o : obj) : string :=
  to_string (JS.or (JStr (to_string (JS.or (get o "detail") (JStr "Upload failed"))))
                   (JStr "Failed to upload the file")).

Definition csv_named_excel : Handler.file :=
  {| Handler.name := "a.csv"; Handler.type := "application/vnd.ms-excel";
     Handler.content := two_rows_csv |}.

Definition csv_named_csv : Handler.file :=
  {| Handler.name := "a.csv"; Handler.type := "text/csv"; Handler.content := two_rows_csv |}.

Definition book_file : Handler.file :=
  {| Handler.name := "book.xlsx"; Handler.type := EmptyString; Handler.content := EmptyString |}.

(* ================================================================== *)
(** * Properties *)

(** ** Lemmas about the JavaScript helpers *)

Lemma assign_each_ext : forall hs o i c1 c2,
  (forall j, i <= j < i + length hs -> c1 j = c2 j) ->
  assign_each o i hs c1 = assign_each o i hs c2.
Proof.
  induction hs as [|h hs IH]; intros o i c1 c2 Hc; simpl; [reflexivity|].
  simpl in Hc. rewrite (Hc i) by lia. apply IH.
  intros j Hj. apply Hc. lia.
Qed.

Lemma assign_slots_ext : forall hs o i c1 c2,
  (forall j, i <= j < i + length hs -> c1 j = c2 j) ->
  assign_slots o i hs c1 = assign_slots o i hs c2.
Proof.
  induction hs as [|[h|] hs IH]; intros o i c1 c2 Hc; simpl; [reflexivity| |];
    simpl in Hc; [rewrite (Hc i) by lia|]; apply IH; intros j Hj; apply Hc; lia.
Qed.

Lemma nth_pad {A} (l : list A) n d j :
  j < n -> nth j (firstn n l ++ repeat d (n - length l)) d = nth j l d.
Proof.
  intros Hj. destruct (Nat.lt_ge_cases j (length l)) as [Hl|Hl].
  - rewrite app_nth1 by (rewrite length_firstn; lia).
    rewrite nth_firstn. replace (Nat.ltb j n) with true by (symmetry; apply Nat.ltb_lt; lia).
    reflexivity.
  - rewrite app_nth2 by (rewrite length_firstn; lia).
    rewrite nth_repeat, nth_overflow by lia. reflexivity.
Qed.

Lemma or_empty_str : forall s, JS.or (JStr s) (JStr EmptyString) = JStr s.
Proof.
  intros s. unfold JS.or, truthy. destruct (String.eqb s EmptyString) eqn:E; simpl.
  - apply String.eqb_eq in E. subst. reflexivity.
  - reflexivity.
Qed.

Lemma csv_cell : forall (values : list string) j,
  JS.or (aget (map JStr values) j) (JStr EmptyString) = JStr (nth j values EmptyString).
Proof.
  intros values j. unfold aget.
  destruct (Nat.lt_ge_cases j (length values)) as [H|H].
  - rewrite nth_indep with (d' := JStr EmptyString) by (rewrite length_map; lia).
    rewrite map_nth. apply or_empty_str.
  - rewrite !nth_overflow by (try rewrite length_map; lia). reflexivity.
Qed.

Lemma csv_row_obj_nth : forall hs values,
  Csv.row_obj hs values = assign_each [] 0 hs (fun j => JStr (nth j values EmptyString)).
Proof.
  intros hs values. unfold Csv.row_obj. apply assign_each_ext. intros j _. apply csv_cell.
Qed.

(** ** Strings *)

Lemma remove_quotes_chars : forall s,
  list_ascii_of_string (remove_quotes s) =
  filter (fun c => negb (Ascii.eqb c quote)) (list_ascii_of_string s).
Proof.
  induction s as [|c s IH]; simpl; [reflexivity|].
  destruct (Ascii.eqb c quote); simpl; rewrite IH; reflexivity.
Qed.

(* ------------------------------------------------------------------ *)
(** ** Convergence of the tracker *)

(** C1 (counterexample): a snapshot whose only record has a failure
    status does not stop polling: [allDone] is false and [isPolling]
    stays true, though every record of the snapshot is terminal. *)
Lemma C1_failed_record_blocks_convergence :
  let r := Tracker.fetchScrapRecords pending_state
             (Tracker.FetchOk [{| Tracker.id := "r1"; Tracker.status := "failed" |}]) in
  fst r = false /\ Tracker.isPolling (snd r) = true.
Proof. split; reflexivity. Qed.

Lemma all_done_snapshot : forall recs,
  Tracker.all_done (Tracker.snapshot recs) = Some (Tracker.allDone recs).
Proof.
  induction recs as [|r recs IH]; [reflexivity|].
  unfold Tracker.snapshot, Tracker.all_done in *. cbn [map Tracker.every_done Tracker.allDone forallb].
  unfold Tracker.is_done, Tracker.record_json. cbn [Tracker.field String.eqb Ascii.eqb Bool.eqb].
  destruct (String.eqb (Tracker.status r) "done"); [exact IH | reflexivity].
Qed.

(** C1 (amended): a fetched array of records replaces the stored snapshot
    and [fetchScrapRecords] reports convergence, and clears [isPolling],
    exactly when every record of it has the status string [done]. A
    fetch that fails before the body is parsed changes nothing and
    reports no convergence; a parsed body on which [every] throws (one
    that is not an array, or an array reaching a [null] element) is
    stored all the same and reports no convergence. *)
Theorem C1_converges_iff_all_done : forall st data,
  Tracker.scrapRecords (snd (Tracker.fetchScrapRecords st (Tracker.FetchOk data))) =
    Tracker.snapshot data /\
  (fst (Tracker.fetchScrapRecords st (Tracker.FetchOk data)) = true <->
   forall r, In r data -> Tracker.status r = "done") /\
  Tracker.isPolling (snd (Tracker.fetchScrapRecords st (Tracker.FetchOk data))) =
    Tracker.isPolling st && negb (Tracker.allDone data) /\
  Tracker.fetchScrapRecords st Tracker.FetchFailed = (false, st) /\
  (forall body, Tracker.all_done body = None ->
     Tracker.fetchScrapRecords st (Tracker.FetchBody body) =
       (false, {| Tracker.scrapRecords := body; Tracker.isPolling := Tracker.isPolling st;
                  Tracker.toasts := Tracker.toasts st |})).
Proof.
  intros st data.
  assert (Hall : Tracker.allDone data = true <-> forall r, In r data -> Tracker.status r = "done").
  { unfold Tracker.allDone. rewrite forallb_forall.
    split; intros H r Hr; specialize (H r Hr); [apply String.eqb_eq | apply String.eqb_eq]; assumption. }
  assert (Hb : forall body, Tracker.all_done body = None ->
     Tracker.fetchScrapRecords st (Tracker.FetchBody body) =
       (false, {| Tracker.scrapRecords := body; Tracker.isPolling := Tracker.isPolling st;
                  Tracker.toasts := Tracker.toasts st |})).
  { intros body H. unfold Tracker.fetchScrapRecords. rewrite H. reflexivity. }
  unfold Tracker.FetchOk, Tracker.fetchScrapRecords. rewrite all_done_snapshot.
  destruct (Tracker.allDone data) eqn:E; simpl.
  - rewrite andb_false_r. split; [reflexivity|].
    split; [|split; [reflexivity | split; [reflexivity | exact Hb]]].
    split; [intros _; apply Hall; reflexivity | reflexivity].
  - rewrite andb_true_r. split; [reflexivity|].
    split; [|split; [reflexivity | split; [reflexivity | exact Hb]]].
    split; [discriminate | intros H; apply Hall in H; discriminate].
Qed.

(** C10: an empty snapshot counts as complete: [every] is vacuously
    true, so [fetchScrapRecords] reports convergence, clears
    [isPolling] and shows the completion toast; in the polling loop the
    timer is cleared and no request follows the first one. *)
Theorem C10_empty_snapshot_converges :
  (forall st, Tracker.fetchScrapRecords st (Tracker.FetchOk []) =
   (true, {| Tracker.scrapRecords := Tracker.JArr []; Tracker.isPolling := false;
             Tracker.toasts := Tracker.toasts st ++ [Tracker.ProcessingComplete] |})) /\
  Poll.events (Poll.run (fun _ => 1) (fun _ => Tracker.FetchOk []) pending_state 6) =
    [Poll.Issue 0 0; Poll.Complete 0 1].
Proof. split; [intros st |]; reflexivity. Qed.

(* ------------------------------------------------------------------ *)
(** ** Row alignment *)

(** C3 (counterexample): in the CSV path the cell missing from the
    short row [x] is the empty string, not [null]. *)
Lemma C3_short_row_gets_empty_string :
  Csv.parse short_row_csv = (["a"; "b"], [[("a", JStr "x"); ("b", JStr EmptyString)]]) /\
  get (Csv.row_obj ["a"; "b"] ["x"]) "b" <> JNull.
Proof. split; [reflexivity | discriminate]. Qed.

(** C3 (amended): both paths read only the first [length headers]
    cells of a row; a missing trailing cell is the empty string in the
    CSV path and [undefined] in the spreadsheet path, and [JSON.stringify]
    leaves [undefined] properties out of the response. *)
Theorem C3_pad_and_truncate :
  (forall hs vs, Csv.row_obj hs vs =
     Csv.row_obj hs (firstn (length hs) vs ++ repeat EmptyString (length hs - length vs))) /\
  (forall hs row, Sheet.row_obj hs row =
     Sheet.row_obj hs (firstn (length hs) row ++ repeat JUndef (length hs - length row))) /\
  (forall o k, ~ In (k, JUndef) (json_fields o)).
Proof.
  split; [|split].
  - intros hs vs. rewrite !csv_row_obj_nth. apply assign_each_ext.
    intros j Hj. rewrite nth_pad by lia. reflexivity.
  - intros hs row. unfold Sheet.row_obj, aget. apply assign_slots_ext.
    intros j Hj. rewrite nth_pad by lia. reflexivity.
  - intros o k H. unfold json_fields in H. apply filter_In in H.
    destruct H as [_ H]. discriminate.
Qed.

(* ------------------------------------------------------------------ *)
(** ** Cell cleaning *)

(** C6 (counterexample): the quote between [a] and [b] in the three-character
    cell a, quote, b is removed as well. *)
Lemma C6_interior_quote_removed :
  Csv.clean interior_quote = "ab" /\ Csv.clean interior_quote <> interior_quote.
Proof. split; [reflexivity | discriminate]. Qed.

(** C6 (amended): a CSV header or cell is first trimmed of surrounding
    white space, then every double-quote character in it is deleted,
    wherever it stands; no quote is left in the result. *)
Theorem C6_clean_deletes_every_quote : forall s,
  list_ascii_of_string (Csv.clean s) =
    filter (fun c => negb (Ascii.eqb c quote)) (list_ascii_of_string (trim s)) /\
  (forall c, In c (list_ascii_of_string (Csv.clean s)) -> c <> quote).
Proof.
  intros s. unfold Csv.clean. rewrite remove_quotes_chars. split; [reflexivity|].
  intros c Hc. apply filter_In in Hc. destruct Hc as [_ Hc].
  intros ->. rewrite Ascii.eqb_refl in Hc. discriminate.
Qed.

(* ------------------------------------------------------------------ *)
(** ** Keys of the record objects *)

Lemma set_keys : forall o o' k v v',
  map fst o = map fst o' -> map fst (set o k v) = map fst (set o' k v').
Proof.
  induction o as [|[k1 v1] o IH]; intros [|[k2 v2] o'] k v v' H; simpl in *;
    try discriminate; [reflexivity|].
  injection H as -> H. destruct (String.eqb k k2); simpl; [f_equal; exact H|].
  f_equal. apply IH. exact H.
Qed.

Lemma assign_each_keys : forall hs o o' i c c',
  map fst o = map fst o' ->
  map fst (assign_each o i hs c) = map fst (assign_each o' i hs c').
Proof.
  induction hs as [|h hs IH]; intros o o' i c c' H; simpl; [exact H|].
  apply IH. apply set_keys. exact H.
Qed.

Lemma assign_slots_keys : forall hs o o' i c c',
  map fst o = map fst o' ->
  map fst (assign_slots o i hs c) = map fst (assign_slots o' i hs c').
Proof.
  induction hs as [|[h|] hs IH]; intros o o' i c c' H; simpl; [exact H| |];
    apply IH; [apply set_keys|]; exact H.
Qed.

Lemma own_keys_ext : forall o o', map fst o = map fst o' -> own_keys o = own_keys o'.
Proof. intros o o' H. unfold own_keys. rewrite H. reflexivity. Qed.

Lemma in_set_keys : forall o h v k,
  In k (map fst (set o h v)) <-> k = h \/ In k (map fst o).
Proof.
  induction o as [|[k1 v1] o IH]; intros h v k; simpl.
  - intuition congruence.
  - destruct (String.eqb h k1) eqn:E; simpl.
    + apply String.eqb_eq in E. subst. intuition congruence.
    + rewrite IH. intuition congruence.
Qed.

Lemma in_assign_keys : forall hs o i c k,
  In k (map fst (assign_each o i hs c)) <-> In k hs \/ In k (map fst o).
Proof.
  induction hs as [|h hs IH]; intros o i c k; simpl.
  - tauto.
  - rewrite IH, in_set_keys. intuition congruence.
Qed.

Lemma in_assign_slots_keys : forall hs o i c k,
  In k (map fst (assign_slots o i hs c)) <-> In (Some k) hs \/ In k (map fst o).
Proof.
  induction hs as [|[h|] hs IH]; intros o i c k; simpl.
  - tauto.
  - rewrite IH, in_set_keys. intuition congruence.
  - rewrite IH. intuition congruence.
Qed.

Lemma in_insert_index : forall l n k' k,
  In k (map snd (insert_index n k' l)) <-> k = k' \/ In k (map snd l).
Proof.
  induction l as [|[m k1] l IH]; intros n k' k; simpl.
  - intuition congruence.
  - destruct (N.leb n m); simpl.
    + intuition congruence.
    + rewrite IH. intuition congruence.
Qed.

Lemma in_index_fold : forall ks acc k,
  In k (map snd (fold_left (fun acc k => match array_index k with
                                         | Some n => insert_index n k acc
                                         | None => acc end) ks acc)) <->
  In k (map snd acc) \/ (In k ks /\ array_index k <> None).
Proof.
  induction ks as [|k1 ks IH]; intros acc k; simpl.
  - tauto.
  - rewrite IH. destruct (array_index k1) as [n|] eqn:E.
    + rewrite in_insert_index. split.
      * intros [[->|H]|[H1 H2]]; [right; split; [left; reflexivity|congruence]|tauto|tauto].
      * intros [H|[[->|H1] H2]]; [tauto|left; left; reflexivity|tauto].
    + split.
      * intros [H|[H1 H2]]; [tauto|right; split; [right; exact H1|exact H2]].
      * intros [H|[[->|H1] H2]]; [tauto|congruence|tauto].
Qed.

Lemma in_own_keys : forall o k, In k (own_keys o) <-> In k (map fst o).
Proof.
  intros o k. unfold own_keys. rewrite in_app_iff, in_index_fold, filter_In. simpl.
  split.
  - intros [[[] | [H _]] | [H _]]; exact H.
  - intros H. destruct (array_index k) eqn:E.
    + left. right. split; [exact H | discriminate].
    + right. split; [exact H | reflexivity].
Qed.

(** C9 (counterexample): a repeated header gives a record with one key
    [x] for the two headers [x, x]; and the integer-like header [1] is
    listed before [b] although it comes second in the header row. *)
Lemma C9_keys_differ_from_headers :
  fst (Csv.parse dup_header_csv) = ["x"; "x"] /\
  map own_keys (snd (Csv.parse dup_header_csv)) = [["x"]] /\
  fst (Csv.parse index_header_csv) = ["b"; "1"] /\
  map own_keys (snd (Csv.parse index_header_csv)) = [["1"; "b"]].
Proof. repeat split; reflexivity. Qed.

Lemma csv_parse_rows : forall text r,
  In r (snd (Csv.parse text)) -> exists vs, r = Csv.row_obj (fst (Csv.parse text)) vs.
Proof.
  intros text r H. unfold Csv.parse in *.
  destruct (filter Csv.nonblank (split Csv.nl text)) as [|l0 rest]; simpl in *; [contradiction|].
  apply in_map_iff in H. destruct H as [l [<- _]]. eexists. reflexivity.
Qed.

Lemma sheet_parse_rows : forall data r,
  In r (snd (Sheet.parse data)) -> exists row, r = Sheet.row_obj (fst (Sheet.parse data)) row.
Proof.
  intros data r H. destruct data as [|r0 rows]; simpl in *; [contradiction|].
  apply in_map_iff in H. destruct H as [row [<- _]]. eexists. reflexivity.
Qed.

(** C9 (amended): within one decoded file every record object has the
    same key sequence, and its keys are exactly the header names as a
    set (a repeated name gives one key; integer-like names are listed
    first; a hole left in a spreadsheet header row by a missing cell
    gives no key); in the spreadsheet path a cell missing from a row is
    [undefined] and left out of the JSON response, so the serialized
    records of one sheet can carry different keys. *)
Theorem C9_same_keys_in_every_record :
  (forall text r1 r2, In r1 (snd (Csv.parse text)) -> In r2 (snd (Csv.parse text)) ->
     own_keys r1 = own_keys r2) /\
  (forall text r k, In r (snd (Csv.parse text)) ->
     (In k (own_keys r) <-> In k (fst (Csv.parse text)))) /\
  (forall data r1 r2, In r1 (snd (Sheet.parse data)) -> In r2 (snd (Sheet.parse data)) ->
     own_keys r1 = own_keys r2) /\
  (forall data r k, In r (snd (Sheet.parse data)) ->
     (In k (own_keys r) <-> In (Some k) (fst (Sheet.parse data)))) /\
  map (fun r => map fst (json_fields r)) (snd (Sheet.parse ragged_sheet)) = [["a"; "b"]; ["a"]].
Proof.
  split; [|split; [|split; [|split]]].
  - intros text r1 r2 H1 H2.
    destruct (csv_parse_rows _ _ H1) as [v1 ->]. destruct (csv_parse_rows _ _ H2) as [v2 ->].
    apply own_keys_ext. apply assign_each_keys. reflexivity.
  - intros text r k H. destruct (csv_parse_rows _ _ H) as [v ->].
    rewrite in_own_keys. unfold Csv.row_obj. rewrite in_assign_keys. simpl. tauto.
  - intros data r1 r2 H1 H2.
    destruct (sheet_parse_rows _ _ H1) as [v1 ->]. destruct (sheet_parse_rows _ _ H2) as [v2 ->].
    apply own_keys_ext. apply assign_slots_keys. reflexivity.
  - intros data r k H. destruct (sheet_parse_rows _ _ H) as [v ->].
    rewrite in_own_keys. unfold Sheet.row_obj. rewrite in_assign_slots_keys. simpl. tauto.
  - reflexivity.
Qed.

Lemma C9_same_keys_in_every_record_witness :
  own_keys [("name", JStr "Ada"); ("age", JStr "36")] =
    own_keys [("name", JStr "Linus"); ("age", JStr "55")] /\
  own_keys [("a", JNum 1); ("c", JNum 3)] = own_keys [("a", JNum 4); ("c", JUndef)] /\
  ~ In "b" (own_keys [("a", JNum 1); ("c", JNum 3)]).
Proof.
  destruct C9_same_keys_in_every_record as [H1 [_ [H3 [H4 _]]]].
  split; [apply (H1 two_rows_csv); vm_compute; tauto|].
  split; [apply (H3 gap_sheet); vm_compute; tauto|].
  intros Hb. apply (H4 gap_sheet [("a", JNum 1); ("c", JNum 3)] "b") in Hb; [|vm_compute; tauto].
  vm_compute in Hb. destruct Hb as [Hb|[Hb|[Hb|[]]]]; discriminate.
Defined.

(* ------------------------------------------------------------------ *)
(** ** Line splitting and blank lines *)

Lemma split_nonempty : forall c s, split c s <> [].
Proof.
  intros c [|d r]; simpl; [discriminate|].
  destruct (Ascii.eqb d c); [discriminate|]. destruct (split c r); discriminate.
Qed.

Lemma split_app : forall c a b, split c (a ++ String c b) = split c a ++ split c b.
Proof.
  intros c a b. induction a as [|d r IH]; simpl.
  - rewrite Ascii.eqb_refl. reflexivity.
  - destruct (Ascii.eqb d c); [rewrite IH; reflexivity|].
    rewrite IH. destruct (split c r) as [|p ps] eqn:E; [exfalso; exact (split_nonempty c r E)|].
    reflexivity.
Qed.

Lemma filter_all_false {A} (f : A -> bool) (l : list A) :
  (forall x, In x l -> f x = false) -> filter f l = [].
Proof.
  induction l as [|x l IH]; intros H; simpl; [reflexivity|].
  rewrite (H x (or_introl eq_refl)). apply IH. intros y Hy. apply H. right. exact Hy.
Qed.

(** C8: the CSV path makes one record for every non-blank line after
    the header line (the first non-blank line), in order; appending
    blank lines, or inserting them between lines, leaves the result
    unchanged. *)
Theorem C8_one_record_per_nonblank_line :
  (forall text, length (snd (Csv.parse text)) =
                length (filter Csv.nonblank (split Csv.nl text)) - 1) /\
  (forall text, snd (Csv.parse text) =
     map (fun l => Csv.row_obj (fst (Csv.parse text)) (Csv.cells l))
         (tl (filter Csv.nonblank (split Csv.nl text)))) /\
  (forall text s, (forall l, In l (split Csv.nl s) -> Csv.nonblank l = false) ->
     Csv.parse (text ++ String Csv.nl s) = Csv.parse text) /\
  (forall a m b, (forall l, In l (split Csv.nl m) -> Csv.nonblank l = false) ->
     Csv.parse (a ++ String Csv.nl (m ++ String Csv.nl b)) = Csv.parse (a ++ String Csv.nl b)).
Proof.
  split; [|split; [|split]].
  - intros text. unfold Csv.parse.
    destruct (filter Csv.nonblank (split Csv.nl text)) as [|l0 rest]; simpl;
      [reflexivity | rewrite length_map; lia].
  - intros text. unfold Csv.parse.
    destruct (filter Csv.nonblank (split Csv.nl text)) as [|l0 rest]; reflexivity.
  - intros text s H. unfold Csv.parse.
    rewrite split_app, filter_app, (filter_all_false _ _ H), app_nil_r. reflexivity.
  - intros a m b H. unfold Csv.parse.
    rewrite !split_app, !filter_app, (filter_all_false _ _ H). reflexivity.
Qed.

Lemma C8_one_record_per_nonblank_line_witness :
  (forall l, In l (split Csv.nl blank_tail) -> Csv.nonblank l = false) /\
  Csv.parse (two_rows_csv ++ String Csv.nl blank_tail) = Csv.parse two_rows_csv.
Proof.
  assert (H : forall l, In l (split Csv.nl blank_tail) -> Csv.nonblank l = false)
    by (intros l Hl; simpl in Hl; destruct Hl as [<-|[<-|[]]]; reflexivity).
  split; [exact H | exact (proj1 (proj2 (proj2 C8_one_record_per_nonblank_line)) _ _ H)].
Defined.

(** The example of the specification: two records, blank tail ignored. *)
Example two_rows_example :
  Csv.parse (two_rows_csv ++ String Csv.nl (String Csv.nl EmptyString)) =
  (["name"; "age"],
   [[("name", JStr "Ada"); ("age", JStr "36")];
    [("name", JStr "Linus"); ("age", JStr "55")]]).
Proof. reflexivity. Qed.

(* ------------------------------------------------------------------ *)
(** ** Empty header names *)

(** C5 (counterexample): no placeholder is made for a blank header: an
    empty CSV header stays the empty string; in the spreadsheet path the
    falsy cell [0] becomes the empty string, and the missing cell stays a
    hole of the headers array. *)
Lemma C5_empty_header_kept :
  fst (Csv.parse blank_header_csv) = ["a"; EmptyString; "b"] /\
  fst (Sheet.parse blank_header_sheet) = [Some "a"; None; Some EmptyString] /\
  In EmptyString (fst (Csv.parse blank_header_csv)).
Proof. split; [reflexivity | split; [reflexivity | right; left; reflexivity]]. Qed.

(** C5 (amended): no placeholder is made for a blank header. A CSV
    header field that is empty after cleaning is the header
    [EmptyString]. In the spreadsheet path a present header cell that is
    falsy (empty string, [0], [false], [null]) becomes [EmptyString]
    through [String(h || '')], while a missing header cell stays a hole:
    it still counts in the length of the headers array. *)
Theorem C5_blank_header_is_empty_string :
  (forall text l0 rest i f,
     filter Csv.nonblank (split Csv.nl text) = l0 :: rest ->
     nth_error (split Csv.comma l0) i = Some f -> Csv.clean f = EmptyString ->
     nth_error (fst (Csv.parse text)) i = Some EmptyString) /\
  (forall r0 rows i h,
     nth_error r0 i = Some h -> h <> JUndef -> truthy h = false ->
     nth_error (fst (Sheet.parse (r0 :: rows))) i = Some (Some EmptyString)) /\
  (forall r0 rows i,
     nth_error r0 i = Some JUndef -> nth_error (fst (Sheet.parse (r0 :: rows))) i = Some None) /\
  (forall r0 rows, length (fst (Sheet.parse (r0 :: rows))) = length r0).
Proof.
  split; [|split; [|split]].
  - intros text l0 rest i f Hl Hf Hc. unfold Csv.parse. rewrite Hl. simpl.
    unfold Csv.cells. rewrite nth_error_map, Hf. simpl. rewrite Hc. reflexivity.
  - intros r0 rows i h Hh Hu Ht. simpl. rewrite nth_error_map, Hh. simpl.
    unfold Sheet.map_header. destruct h; try (exfalso; exact (Hu eq_refl));
      unfold Sheet.header, JS.or; rewrite Ht; reflexivity.
  - intros r0 rows i Hh. simpl. rewrite nth_error_map, Hh. reflexivity.
  - intros r0 rows. simpl. apply length_map.
Qed.

Lemma C5_blank_header_is_empty_string_witness :
  nth_error (fst (Csv.parse blank_header_csv)) 1 = Some EmptyString /\
  nth_error (fst (Sheet.parse blank_header_sheet)) 2 = Some (Some EmptyString) /\
  nth_error (fst (Sheet.parse blank_header_sheet)) 1 = Some None.
Proof.
  destruct C5_blank_header_is_empty_string as [H1 [H2 [H3 _]]].
  split; [apply (H1 blank_header_csv "a,,b" ["1,2,3"] 1 EmptyString); reflexivity|].
  split; [apply (H2 [JStr "a"; JUndef; JNum 0] [[JNum 1]] 2 (JNum 0)); [reflexivity | discriminate | reflexivity]|].
  apply (H3 [JStr "a"; JUndef; JNum 0] [[JNum 1]] 1). reflexivity.
Defined.

(* ------------------------------------------------------------------ *)
(** ** Format validation and decode failures *)

(** C4 (counterexample): an empty [.csv] file is not rejected as
    malformed: the handler answers 200 with no headers and no rows. *)
Lemma C4_empty_csv_accepted :
  Handler.serve (fun _ => None) (Handler.Post (Some empty_csv_file)) =
  Handler.Ok200 "empty.csv" "CSV Data" 0 0 [] [] [].
Proof. reflexivity. Qed.

(** C4 (amended): a file whose MIME type is none of the three and whose
    name ends in none of [.xlsx], [.xls], [.csv] is answered 400. A file
    named [*.csv] always goes through the CSV path, which never fails
    (a file without a non-blank line gives no headers and no rows). Any
    other accepted file goes to SheetJS, and when SheetJS throws the
    answer is 500, with no table. *)
Theorem C4_validation_and_failures : forall xlsx,
  (forall f, Handler.isValidType f = false ->
     Handler.serve xlsx (Handler.Post (Some f)) = Handler.Bad400 Handler.invalid_type_msg) /\
  (forall f, ends_with ".csv" (Handler.name f) = true ->
     Handler.serve xlsx (Handler.Post (Some f)) =
     Handler.result (Handler.name f) "CSV Data" (Csv.parse (Handler.content f))) /\
  (forall text, (forall l, In l (split Csv.nl text) -> Csv.nonblank l = false) ->
     Csv.parse text = ([], [])) /\
  (forall f, Handler.isValidType f = true -> ends_with ".csv" (Handler.name f) = false ->
     xlsx (Handler.content f) = None ->
     Handler.serve xlsx (Handler.Post (Some f)) = Handler.Fail500).
Proof.
  intros xlsx. split; [|split; [|split]].
  - intros f H. simpl. rewrite H. reflexivity.
  - intros f H. simpl.
    replace (Handler.isValidType f) with true
      by (unfold Handler.isValidType; rewrite H; rewrite !orb_true_r; reflexivity).
    simpl. rewrite H. reflexivity.
  - intros text H. unfold Csv.parse. rewrite (filter_all_false _ _ H). reflexivity.
  - intros f H1 H2 H3. simpl. rewrite H1, H2, H3. reflexivity.
Qed.

Lemma C4_validation_and_failures_witness :
  Handler.isValidType notes_file = false /\
  Handler.serve (fun _ => None) (Handler.Post (Some notes_file)) =
    Handler.Bad400 Handler.invalid_type_msg.
Proof.
  split; [reflexivity|].
  apply (proj1 (C4_validation_and_failures (fun _ => None)) notes_file). reflexivity.
Defined.

(* ------------------------------------------------------------------ *)
(** ** The polling schedule *)

(** C2 (counterexample): with a response time of 3 units the interval
    issues request 1 at instant 2, before the response of request 0 is
    handled at instant 3. *)
Lemma C2_polls_overlap :
  Poll.events (Poll.run (fun _ => 3) pending_resp pending_state 3) =
    [Poll.Issue 0 0; Poll.Issue 1 2; Poll.Complete 0 3] /\
  ~ Poll.serialized (Poll.events (Poll.run (fun _ => 3) pending_resp pending_state 3)).
Proof.
  assert (E : Poll.events (Poll.run (fun _ => 3) pending_resp pending_state 3) =
              [Poll.Issue 0 0; Poll.Issue 1 2; Poll.Complete 0 3]) by reflexivity.
  split; [exact E|]. rewrite E. intros H.
  destruct (H 0 2) as [tc [Hin Hle]]; [right; left; reflexivity|].
  simpl in Hin. destruct Hin as [Hin|[Hin|[Hin|[]]]]; try discriminate.
  injection Hin as Heq. lia.
Qed.

Section Schedule.

Variable lat : nat -> nat.
Variable resp : nat -> Tracker.fetch_result.
Hypothesis never_done : forall k,
  match resp k with
  | Tracker.FetchBody d => Tracker.all_done d <> Some true
  | Tracker.FetchFailed => True
  end.

Let Live (s : Poll.sim) : Prop :=
  Poll.timer_on s = true /\ Tracker.isPolling (Poll.tracker s) = true.

Lemma handle_live : forall s p,
  Live s -> Live (Poll.handle resp s p) /\
  Poll.now (Poll.handle resp s p) = Poll.now s /\
  Poll.issue_times (Poll.events (Poll.handle resp s p)) = Poll.issue_times (Poll.events s).
Proof.
  intros s [k t] [H1 H2]. unfold Poll.handle. simpl.
  generalize (never_done k). unfold Tracker.fetchScrapRecords.
  destruct (resp k) as [|d]; [intros _ |
    intros Hd; destruct (Tracker.all_done d) as [[|]|]; [exfalso; exact (Hd eq_refl)| |]]; simpl;
    (split; [split; [rewrite H1, H2; reflexivity | exact H2] | split; [reflexivity|]]);
    unfold Poll.issue_times; rewrite flat_map_app; simpl; apply app_nil_r.
Qed.

Lemma fold_handle_live : forall l s,
  Live s -> Live (fold_left (Poll.handle resp) l s) /\
  Poll.now (fold_left (Poll.handle resp) l s) = Poll.now s /\
  Poll.issue_times (Poll.events (fold_left (Poll.handle resp) l s)) =
    Poll.issue_times (Poll.events s).
Proof.
  induction l as [|p l IH]; intros s Hs; simpl; [tauto|].
  destruct (handle_live s p Hs) as [H1 [H2 H3]].
  destruct (IH _ H1) as [H4 [H5 H6]]. rewrite H5, H6, H2, H3. tauto.
Qed.

Lemma every_two_S : forall T,
  every_two (S T) = if Nat.even (S T) then every_two T ++ [S T] else every_two T.
Proof.
  intros T. unfold every_two.
  pose proof (Nat.div_mod_eq T 2). pose proof (Nat.mod_upper_bound T 2).
  pose proof (Nat.div_mod_eq (S T) 2). pose proof (Nat.mod_upper_bound (S T) 2).
  destruct (Nat.even (S T)) eqn:E.
  - apply Nat.even_spec in E. destruct E as [m Hm].
    replace (S T / 2) with (S (T / 2)) by lia.
    rewrite (seq_S (S (T / 2))), map_app. f_equal. cbn [map]. f_equal. lia.
  - assert (Ho : Nat.odd (S T) = true) by (rewrite <- Nat.negb_even, E; reflexivity).
    apply Nat.odd_spec in Ho. destruct Ho as [m Hm].
    replace (S T / 2) with (T / 2) by lia. reflexivity.
Qed.

Lemma deliver_live : forall s,
  Live s -> Live (Poll.deliver resp s) /\
  Poll.now (Poll.deliver resp s) = Poll.now s /\
  Poll.issue_times (Poll.events (Poll.deliver resp s)) = Poll.issue_times (Poll.events s).
Proof.
  intros s [H1 H2]. unfold Poll.deliver.
  match goal with |- context [fold_left (Poll.handle resp) ?l ?s0] =>
    destruct (fold_handle_live l s0) as [H3 [H4 H5]]; [split; assumption|] end.
  rewrite H4, H5. split; [exact H3 | split; reflexivity].
Qed.

Lemma run_live : forall st T, Tracker.isPolling st = true ->
  Live (Poll.run lat resp st T) /\ Poll.now (Poll.run lat resp st T) = T /\
  Poll.issue_times (Poll.events (Poll.run lat resp st T)) = every_two T.
Proof.
  intros st T Hst. induction T as [|T [[H1 H2] [H3 H4]]].
  - simpl. repeat split; [exact Hst].
  - cbn [Poll.run]. unfold Poll.tick.
    match goal with |- context [Poll.deliver resp ?s0] =>
      destruct (deliver_live s0) as [[H5 H6] [H7 H8]]; [split; assumption|];
      cbn [Poll.now Poll.events] in H7, H8;
      remember (Poll.deliver resp s0) as s1 eqn:Hs1 end.
    rewrite H3 in H7. rewrite H4 in H8. rewrite H5, H7. cbn [andb].
    rewrite every_two_S. destruct (Nat.even (S T)).
    + unfold Poll.issue, Live. cbn [Poll.timer_on Poll.tracker Poll.now Poll.events].
      rewrite H5, H6, H7. split; [split; reflexivity | split; [reflexivity |]].
      unfold Poll.issue_times in *. rewrite flat_map_app, H8. reflexivity.
    + split; [split; assumption | split; assumption].
Qed.

End Schedule.

(** C2 (amended): polls are not serialized. The initial fetch is issued
    at once and the interval timer issues one more fetch every 2 time
    units, counted from start to start; as long as no response reports
    that all records are done, the issue instants are [0, 2, 4, ...]
    whatever the response times, so a slow response overlaps later
    polls. *)
Theorem C2_fixed_rate_polling : forall lat resp st T,
  (forall k, match resp k with
             | Tracker.FetchBody d => Tracker.all_done d <> Some true
             | Tracker.FetchFailed => True end) ->
  Tracker.isPolling st = true ->
  Poll.issue_times (Poll.events (Poll.run lat resp st T)) = every_two T.
Proof.
  intros lat resp st T Hnd Hst. apply (run_live lat resp Hnd st T Hst).
Qed.

Lemma C2_fixed_rate_polling_witness :
  Poll.issue_times (Poll.events (Poll.run (fun _ => 3) pending_resp pending_state 4)) = [0; 2; 4].
Proof.
  apply (C2_fixed_rate_polling (fun _ => 3) pending_resp pending_state 4);
    [intros k; vm_compute; intros Hk; discriminate Hk | reflexivity].
Defined.

(* ------------------------------------------------------------------ *)
(** ** Rejected uploads *)

(** C7 (counterexample): the reason [bad header] sent in the body's
    [reason] field is not what the user is shown: the error message is
    the fallback [Upload failed]. *)
Lemma C7_reason_field_ignored :
  Upload.toasts (Upload.uploadFile ready_state bad_header_reply) =
    [Upload.Toast "Upload failed" "Upload failed" true] /\
  ~ (exists title d, In (Upload.Toast title "bad header" d)
                        (Upload.toasts (Upload.uploadFile ready_state bad_header_reply))).
Proof.
  split; [reflexivity|]. intros [title [d [H|[]]]]. discriminate.
Qed.

(** C7 (amended): when the upload response is not ok (status outside
    200..299) and its body is a JSON object, [uploadFile] shows an error
    toast whose text is the body's [detail] field (converted to a string),
    or [Upload failed] when [detail] is absent or falsy; the [reason] field
    is not read. Exactly one request is made, no file id is stored, and
    [isPolling] and [uploadSuccess] keep their values, so no polling is
    started; [isProcessing] ends false. *)
Theorem C7_rejected_upload : forall st fname status o,
  Upload.uploadedFile st = Some fname -> Upload.response_ok status = false ->
  let st' := Upload.uploadFile st (Upload.Http status (Upload.JsonObj o)) in
  Upload.toasts st' = Upload.toasts st ++ [Upload.Toast "Upload failed" (rejection_message o) true] /\
  Upload.requests st' = Upload.requests st ++ [Upload.upload_request] /\
  Upload.currentFileId st' = Upload.currentFileId st /\
  Upload.isPolling st' = Upload.isPolling st /\
  Upload.uploadSuccess st' = Upload.uploadSuccess st /\
  Upload.uploadedFile st' = Upload.uploadedFile st /\
  Upload.isProcessing st' = false.
Proof.
  intros st fname status o Hf Hs st'. subst st'. unfold Upload.uploadFile. rewrite Hf.
  unfold Upload.attempt. rewrite Hs. repeat split; reflexivity.
Qed.

Lemma C7_rejected_upload_witness :
  Upload.isPolling (Upload.uploadFile ready_state bad_header_reply) = false /\
  Upload.toasts (Upload.uploadFile ready_state bad_header_reply) =
    [Upload.Toast "Upload failed" (rejection_message [("reason", JStr "bad header")]) true].
Proof.
  destruct (C7_rejected_upload ready_state "data.csv" 400 [("reason", JStr "bad header")])
    as [H1 [_ [_ [H4 _]]]]; [reflexivity | reflexivity |].
  split; [exact H4 | exact H1].
Defined.

(* ------------------------------------------------------------------ *)
(** ** Instances of the properties at concrete inputs *)

Lemma C1_converges_iff_all_done_witness :
  fst (Tracker.fetchScrapRecords pending_state
         (Tracker.FetchOk [{| Tracker.id := "r1"; Tracker.status := "done" |}])) = true /\
  Tracker.fetchScrapRecords pending_state (Tracker.FetchBody (Tracker.JObj [])) =
    (false, {| Tracker.scrapRecords := Tracker.JObj []; Tracker.isPolling := true;
               Tracker.toasts := [] |}).
Proof.
  destruct (C1_converges_iff_all_done pending_state
              [{| Tracker.id := "r1"; Tracker.status := "done" |}]) as [_ [[_ H2] [_ [_ H5]]]].
  split; [apply H2; intros r [<-|[]]; reflexivity|].
  exact (H5 (Tracker.JObj []) eq_refl).
Defined.

Lemma C3_pad_and_truncate_witness :
  Csv.row_obj ["a"; "b"] ["x"; "y"; "z"] = Csv.row_obj ["a"; "b"] ["x"; "y"] /\
  ~ In ("b", JUndef) (json_fields (Sheet.row_obj [Some "a"; Some "b"] [JNum 1])).
Proof.
  split.
  - exact (proj1 C3_pad_and_truncate ["a"; "b"] ["x"; "y"; "z"]).
  - exact (proj2 (proj2 C3_pad_and_truncate) _ "b").
Defined.

Lemma C6_clean_deletes_every_quote_witness :
  list_ascii_of_string (Csv.clean interior_quote) = ["a"%char; "b"%char] /\
  ~ In quote (list_ascii_of_string (Csv.clean interior_quote)).
Proof.
  split; [reflexivity|].
  intros H. exact (proj2 (C6_clean_deletes_every_quote interior_quote) quote H eq_refl).
Defined.

(* ================================================================== *)
(** * Further properties of the code *)

(** ** Object lookups *)

Lemma get_set_eq : forall o k v, get (set o k v) k = v.
Proof.
  induction o as [|[k' v'] o IH]; intros k v; simpl.
  - rewrite String.eqb_refl. reflexivity.
  - destruct (String.eqb k k') eqn:E; simpl.
    + rewrite String.eqb_refl. reflexivity.
    + rewrite E. apply IH.
Qed.

Lemma get_set_neq : forall o k v k', k' <> k -> get (set o k v) k' = get o k'.
Proof.
  induction o as [|[k1 v1] o IH]; intros k v k' Hne; simpl.
  - apply String.eqb_neq in Hne. rewrite Hne. reflexivity.
  - destruct (String.eqb k k1) eqn:E; simpl.
    + apply String.eqb_eq in E. subst k1.
      apply String.eqb_neq in Hne. rewrite Hne. reflexivity.
    + destruct (String.eqb k' k1); [reflexivity | apply IH; exact Hne].
Qed.

Lemma get_assign_notin : forall hs o i c k,
  ~ In k hs -> get (assign_each o i hs c) k = get o k.
Proof.
  induction hs as [|h hs IH]; intros o i c k Hk; simpl; [reflexivity|].
  rewrite IH by (intros H; apply Hk; right; exact H).
  apply get_set_neq. intros ->. apply Hk. left. reflexivity.
Qed.

Lemma assign_each_app : forall hs1 hs2 o i c,
  assign_each o i (hs1 ++ hs2) c = assign_each (assign_each o i hs1 c) (i + length hs1) hs2 c.
Proof.
  induction hs1 as [|h hs1 IH]; intros hs2 o i c; simpl.
  - rewrite Nat.add_0_r. reflexivity.
  - rewrite IH. f_equal. lia.
Qed.

Lemma get_assign_last : forall hs1 h hs2 o i c,
  ~ In h hs2 -> get (assign_each o i (hs1 ++ h :: hs2) c) h = c (i + length hs1).
Proof.
  intros hs1 h hs2 o i c Hh. rewrite assign_each_app. simpl.
  rewrite get_assign_notin by exact Hh. apply get_set_eq.
Qed.

Lemma get_assign_slots_notin : forall hs o i c k,
  ~ In (Some k) hs -> get (assign_slots o i hs c) k = get o k.
Proof.
  induction hs as [|[h|] hs IH]; intros o i c k Hk; simpl; [reflexivity| |].
  - rewrite IH by (intros H; apply Hk; right; exact H).
    apply get_set_neq. intros ->. apply Hk. left. reflexivity.
  - apply IH. intros H. apply Hk. right. exact H.
Qed.

Lemma assign_slots_app : forall hs1 hs2 o i c,
  assign_slots o i (hs1 ++ hs2) c = assign_slots (assign_slots o i hs1 c) (i + length hs1) hs2 c.
Proof.
  induction hs1 as [|[h|] hs1 IH]; intros hs2 o i c; simpl.
  - rewrite Nat.add_0_r. reflexivity.
  - rewrite IH. f_equal. lia.
  - rewrite IH. f_equal. lia.
Qed.

Lemma get_assign_slots_last : forall hs1 h hs2 o i c,
  ~ In (Some h) hs2 -> get (assign_slots o i (hs1 ++ Some h :: hs2) c) h = c (i + length hs1).
Proof.
  intros hs1 h hs2 o i c Hh. rewrite assign_slots_app. simpl.
  rewrite get_assign_slots_notin by exact Hh. apply get_set_eq.
Qed.

(** The record built for a row, looked up at a header name, holds the cell
    of the LAST column carrying that name (a repeated header is
    overwritten by its later column); a name that is not a header gives
    [undefined]. In the CSV path the cell is the trimmed text or the empty
    string past the end of the row, in the spreadsheet path the raw cell or
    [undefined]. *)
Theorem row_lookup_last_column_wins :
  (forall hs1 h hs2 vs, ~ In h hs2 ->
     get (Csv.row_obj (hs1 ++ h :: hs2) vs) h = JStr (nth (length hs1) vs EmptyString)) /\
  (forall hs1 h hs2 row, ~ In (Some h) hs2 ->
     get (Sheet.row_obj (hs1 ++ Some h :: hs2) row) h = aget row (length hs1)) /\
  (forall hs vs k, ~ In k hs -> get (Csv.row_obj hs vs) k = JUndef) /\
  (forall hs row k, ~ In (Some k) hs -> get (Sheet.row_obj hs row) k = JUndef).
Proof.
  split; [|split; [|split]].
  - intros hs1 h hs2 vs Hh. rewrite csv_row_obj_nth, get_assign_last by exact Hh. reflexivity.
  - intros hs1 h hs2 row Hh. unfold Sheet.row_obj. rewrite get_assign_slots_last by exact Hh.
    reflexivity.
  - intros hs vs k Hk. rewrite csv_row_obj_nth, get_assign_notin by exact Hk. reflexivity.
  - intros hs row k Hk. unfold Sheet.row_obj. rewrite get_assign_slots_notin by exact Hk.
    reflexivity.
Qed.

Lemma row_lookup_last_column_wins_witness :
  get (Csv.row_obj ["x"; "x"] ["1"; "2"]) "x" = JStr "2".
Proof.
  apply (proj1 row_lookup_last_column_wins ["x"] "x" [] ["1"; "2"]). intros [].
Defined.

(** ** Commas *)

Lemma length_split : forall c s,
  length (split c s) = S (count_occ Ascii.ascii_dec (list_ascii_of_string s) c).
Proof.
  intros c s. induction s as [|d r IH]; simpl; [reflexivity|].
  destruct (Ascii.eqb d c) eqn:E.
  - apply Ascii.eqb_eq in E. subst d. destruct (Ascii.ascii_dec c c) as [_|n]; [|congruence].
    simpl. rewrite IH. reflexivity.
  - apply Ascii.eqb_neq in E. destruct (Ascii.ascii_dec d c) as [e|_]; [congruence|].
    destruct (split c r) as [|p ps]; simpl in *; [discriminate | exact IH].
Qed.

(** Commas are not escaped by quotes in the CSV path: a line gives one
    cell more than it has commas, so a header row with [n] commas gives
    [n + 1] columns, and a quoted field holding a comma is cut in two. *)
Theorem csv_cells_per_comma :
  (forall line, length (Csv.cells line) =
     S (count_occ Ascii.ascii_dec (list_ascii_of_string line) Csv.comma)) /\
  (forall text l0 rest, filter Csv.nonblank (split Csv.nl text) = l0 :: rest ->
     length (fst (Csv.parse text)) =
     S (count_occ Ascii.ascii_dec (list_ascii_of_string l0) Csv.comma)).
Proof.
  split.
  - intros line. unfold Csv.cells. rewrite length_map. apply length_split.
  - intros text l0 rest H. unfold Csv.parse. rewrite H. simpl.
    unfold Csv.cells. rewrite length_map. apply length_split.
Qed.

Lemma csv_cells_per_comma_witness :
  length (fst (Csv.parse two_rows_csv)) = 2.
Proof.
  apply (proj2 csv_cells_per_comma two_rows_csv "name,age" ["Ada,36"; "Linus,55"]).
  reflexivity.
Defined.

(** ** The response of the handler *)

(** Once a file is accepted, its MIME type plays no further part: the
    branch (CSV or SheetJS) is chosen by the name alone, so two accepted
    files with the same name and bytes get the same response. *)
Theorem branch_by_name_only : forall xlsx f1 f2,
  Handler.name f1 = Handler.name f2 -> Handler.content f1 = Handler.content f2 ->
  Handler.isValidType f1 = true -> Handler.isValidType f2 = true ->
  Handler.serve xlsx (Handler.Post (Some f1)) = Handler.serve xlsx (Handler.Post (Some f2)).
Proof.
  intros xlsx f1 f2 Hn Hc H1 H2. simpl. rewrite H1, H2, Hn, Hc. reflexivity.
Qed.

Lemma branch_by_name_only_witness :
  Handler.serve (fun _ => None) (Handler.Post (Some csv_named_excel)) =
  Handler.serve (fun _ => None) (Handler.Post (Some csv_named_csv)).
Proof. apply branch_by_name_only; reflexivity. Defined.

Lemma assign_slots_read : forall hs o i c1 c2,
  (forall j h, nth_error hs j = Some (Some h) -> c1 (i + j) = c2 (i + j)) ->
  assign_slots o i hs c1 = assign_slots o i hs c2.
Proof.
  induction hs as [|[h|] hs IH]; intros o i c1 c2 Hc; simpl; [reflexivity| |].
  - rewrite <- (Nat.add_0_r i), (Hc 0 h eq_refl), Nat.add_0_r.
    apply IH. intros j h' Hj. replace (S i + j) with (i + S j) by lia. apply (Hc (S j) h'). exact Hj.
  - apply IH. intros j h' Hj. replace (S i + j) with (i + S j) by lia. apply (Hc (S j) h'). exact Hj.
Qed.

(** In the spreadsheet path the first grid row is the header row:
    [totalRows] counts the rows after it and [totalColumns] every cell of
    it, a missing cell included, which is a hole of [headers] (written
    [null]). The cell of a row under a missing header cell is never read:
    two rows that agree under the present header cells give the same
    record, so that column is lost from the response. *)
Theorem sheet_hole_column_dropped : forall xlsx f sn r0 rows,
  Handler.isValidType f = true -> ends_with ".csv" (Handler.name f) = false ->
  xlsx (Handler.content f) = Some (sn, r0 :: rows) ->
  (exists data preview, Handler.serve xlsx (Handler.Post (Some f)) =
     Handler.Ok200 (Handler.name f) sn (length rows) (length r0) (map Sheet.map_header r0)
                   data preview) /\
  (forall row row', (forall i h, nth_error r0 i = Some h -> h <> JUndef -> aget row i = aget row' i) ->
     Sheet.row_obj (fst (Sheet.parse (r0 :: rows))) row =
     Sheet.row_obj (fst (Sheet.parse (r0 :: rows))) row').
Proof.
  intros xlsx f sn r0 rows H1 H2 H3. split.
  - simpl. rewrite H1, H2, H3. simpl. rewrite !length_map. eexists. eexists. reflexivity.
  - intros row row' Hr. simpl. unfold Sheet.row_obj. apply assign_slots_read.
    intros j h Hj. rewrite nth_error_map in Hj. simpl.
    destruct (nth_error r0 j) as [c|] eqn:E; [|discriminate].
    apply (Hr j c E). intros ->. discriminate.
Qed.

Lemma sheet_hole_column_dropped_witness :
  Sheet.row_obj (fst (Sheet.parse gap_sheet)) [JNum 1; JNum 2; JNum 3] =
  Sheet.row_obj (fst (Sheet.parse gap_sheet)) [JNum 1; JNum 99; JNum 3] /\
  exists data preview,
    Handler.serve (fun _ => Some ("Sheet1", gap_sheet)) (Handler.Post (Some book_file)) =
    Handler.Ok200 "book.xlsx" "Sheet1" 2 3 [Some "a"; None; Some "c"] data preview.
Proof.
  destruct (sheet_hole_column_dropped (fun _ => Some ("Sheet1", gap_sheet)) book_file "Sheet1"
              [JStr "a"; JUndef; JStr "c"] [[JNum 1; JNum 2; JNum 3]; [JNum 4]]
              eq_refl eq_refl eq_refl) as [H1 H2].
  split; [|exact H1].
  apply H2. intros [|[|[|i]]] h Hh Hu; simpl in Hh; try reflexivity.
  injection Hh as <-. exfalso. exact (Hu eq_refl).
Defined.

(* ------------------------------------------------------------------ *)
(** ** Tracker: the progress counter and the end of polling *)

(** The counter [done / total] shown above the scrap records never
    exceeds the total, and reaches it exactly when [fetchScrapRecords]
    reports the snapshot as all done. *)
Theorem done_counter_matches_allDone : forall recs,
  UploadUI.done_count recs <= length recs /\
  (UploadUI.done_count recs = length recs <-> Tracker.allDone recs = true).
Proof.
  intros recs. unfold UploadUI.done_count, Tracker.allDone. split.
  - apply filter_length_le.
  - induction recs as [|r recs IH]; simpl; [tauto|].
    pose proof (filter_length_le (fun r => String.eqb (Tracker.status r) "done") recs).
    destruct (String.eqb (Tracker.status r) "done"); simpl.
    + rewrite <- IH. lia.
    + split; [lia | discriminate].
Qed.

Lemma done_counter_matches_allDone_witness :
  UploadUI.done_count [{| Tracker.id := "r1"; Tracker.status := "done" |}] = 1.
Proof.
  apply (proj2 (proj2 (done_counter_matches_allDone
                         [{| Tracker.id := "r1"; Tracker.status := "done" |}]))).
  reflexivity.
Defined.

Section AfterDone.

Variable lat : nat -> nat.
Variable resp : nat -> Tracker.fetch_result.

Let Stopped (s : Poll.sim) : Prop :=
  forall k t d, In (Poll.Complete k t) (Poll.events s) -> resp k = Tracker.FetchOk d ->
  Tracker.allDone d = true -> Poll.timer_on s = false.

Lemma handle_stopped : forall s p, Stopped s -> Stopped (Poll.handle resp s p).
Proof.
  intros s [k0 t0] Hs k t d Hin Hr Hd. unfold Poll.handle in *.
  destruct (Tracker.fetchScrapRecords (Poll.tracker s) (resp (fst (k0, t0)))) as [done st'] eqn:F.
  cbn [Poll.events Poll.timer_on] in *. apply in_app_or in Hin. destruct Hin as [Hin|[Hin|[]]].
  - rewrite (Hs k t d Hin Hr Hd). reflexivity.
  - injection Hin as <- _. cbn [fst] in F. rewrite Hr in F. unfold Tracker.FetchOk, Tracker.fetchScrapRecords in F.
    rewrite all_done_snapshot, Hd in F. injection F as <- _. rewrite andb_false_r. reflexivity.
Qed.

Lemma fold_handle_stopped : forall l s, Stopped s -> Stopped (fold_left (Poll.handle resp) l s).
Proof.
  induction l as [|p l IH]; intros s Hs; simpl; [exact Hs|]. apply IH, handle_stopped, Hs.
Qed.

Lemma issue_stopped : forall s, Stopped s -> Stopped (Poll.issue lat s).
Proof.
  intros s Hs k t d Hin Hr Hd. unfold Poll.issue in *. cbn [Poll.events Poll.timer_on] in *.
  apply in_app_or in Hin. destruct Hin as [Hin|[Hin|[]]]; [exact (Hs k t d Hin Hr Hd)|discriminate].
Qed.

Lemma run_stopped : forall st T, Stopped (Poll.run lat resp st T).
Proof.
  intros st T. induction T as [|T IH].
  - simpl. intros k t d [Hin|[]]. discriminate.
  - cbn [Poll.run]. unfold Poll.tick, Poll.deliver.
    match goal with |- context [fold_left (Poll.handle resp) ?l ?s0] =>
      assert (H0 : Stopped s0) by exact IH;
      pose proof (fold_handle_stopped l s0 H0) as H1;
      destruct (Poll.timer_on (fold_left (Poll.handle resp) l s0) && _)
    end; [apply issue_stopped|]; exact H1.
Qed.

Lemma handle_off : forall s p, Poll.timer_on s = false ->
  Poll.timer_on (Poll.handle resp s p) = false /\
  Poll.issue_times (Poll.events (Poll.handle resp s p)) = Poll.issue_times (Poll.events s).
Proof.
  intros s p H. unfold Poll.handle.
  destruct (Tracker.fetchScrapRecords (Poll.tracker s) (resp (fst p))) as [done st'].
  cbn [Poll.timer_on Poll.events]. rewrite H. split; [reflexivity|].
  unfold Poll.issue_times. rewrite flat_map_app. simpl. apply app_nil_r.
Qed.

Lemma fold_handle_off : forall l s, Poll.timer_on s = false ->
  Poll.timer_on (fold_left (Poll.handle resp) l s) = false /\
  Poll.issue_times (Poll.events (fold_left (Poll.handle resp) l s)) =
    Poll.issue_times (Poll.events s).
Proof.
  induction l as [|p l IH]; intros s H; simpl; [tauto|].
  destruct (handle_off s p H) as [H1 H2]. destruct (IH _ H1) as [H3 H4].
  rewrite H4, H2. tauto.
Qed.

Lemma tick_off : forall s, Poll.timer_on s = false ->
  Poll.timer_on (Poll.tick lat resp s) = false /\
  Poll.issue_times (Poll.events (Poll.tick lat resp s)) = Poll.issue_times (Poll.events s).
Proof.
  intros s H. unfold Poll.tick, Poll.deliver.
  match goal with |- context [fold_left (Poll.handle resp) ?l ?s0] =>
    destruct (fold_handle_off l s0) as [H1 H2]; [exact H|];
    rewrite H1; cbn [andb]; split; [exact H1 | exact H2]
  end.
Qed.

End AfterDone.

(** Once the loop has handled a response in which every record is done,
    the timer is cleared for good: no later instant issues another fetch,
    though responses already in flight are still handled. *)
Theorem no_fetch_after_convergence : forall lat resp st T k t d,
  In (Poll.Complete k t) (Poll.events (Poll.run lat resp st T)) ->
  resp k = Tracker.FetchOk d -> Tracker.allDone d = true ->
  forall n, Poll.issue_times (Poll.events (Poll.run lat resp st (n + T))) =
            Poll.issue_times (Poll.events (Poll.run lat resp st T)).
Proof.
  intros lat resp st T k t d Hin Hr Hd n.
  assert (Hoff : Poll.timer_on (Poll.run lat resp st T) = false)
    by exact (run_stopped lat resp st T k t d Hin Hr Hd).
  assert (G : forall n, Poll.timer_on (Poll.run lat resp st (n + T)) = false /\
                        Poll.issue_times (Poll.events (Poll.run lat resp st (n + T))) =
                        Poll.issue_times (Poll.events (Poll.run lat resp st T))).
  { induction n0 as [|n0 [IH1 IH2]]; [split; [exact Hoff | reflexivity]|].
    cbn [Nat.add Poll.run]. destruct (tick_off lat resp _ IH1) as [H1 H2].
    rewrite H2, IH2. split; [exact H1 | reflexivity]. }
  exact (proj2 (G n)).
Qed.

Lemma no_fetch_after_convergence_witness :
  Poll.issue_times (Poll.events (Poll.run (fun _ => 1) (fun _ => Tracker.FetchOk []) pending_state (9 + 1))) = [0].
Proof.
  apply (no_fetch_after_convergence (fun _ => 1) (fun _ => Tracker.FetchOk []) pending_state 1 0 1 []);
    [vm_compute; tauto | reflexivity | reflexivity].
Defined.

(* ------------------------------------------------------------------ *)
(** ** Uploading: success, failure of any kind, drop and remove *)

Lemma truthy_or : forall x y, truthy (JS.or x y) = truthy x || truthy y.
Proof. intros x y. unfold JS.or. destruct (truthy x) eqn:E; simpl; [exact E | reflexivity]. Qed.

(** A 2xx response with a JSON body marks the upload as successful,
    disables the upload button, posts exactly one upload and, when the
    file list is open, refreshes it with one further request; polling
    then runs exactly when the body has a truthy [file_id] or [id]. *)
Theorem upload_success_starts_polling : forall st fname status o,
  Upload.uploadedFile st = Some fname -> Upload.response_ok status = true ->
  let st' := Upload.uploadFile st (Upload.Http status (Upload.JsonObj o)) in
  Upload.uploadSuccess st' = true /\ Upload.isProcessing st' = false /\
  Upload.requests st' = Upload.requests st ++ Upload.upload_request ::
    (if Upload.showFilesList st then [Upload.files_request] else []) /\
  UploadUI.polling_active st' = truthy (get o "file_id") || truthy (get o "id") /\
  UploadUI.upload_button_enabled st' = false.
Proof.
  intros st fname status o Hf Hs st'. subst st'. unfold Upload.uploadFile. rewrite Hf.
  unfold Upload.attempt. rewrite Hs. cbn [Upload.uploadSuccess Upload.isProcessing Upload.requests].
  split; [reflexivity|]. split; [reflexivity|]. split; [rewrite <- app_assoc; reflexivity|].
  unfold UploadUI.polling_active, UploadUI.upload_button_enabled. cbn [Upload.isPolling
    Upload.currentFileId Upload.uploadedFile Upload.isProcessing Upload.uploadSuccess].
  rewrite ?Hf, truthy_or. split; reflexivity.
Qed.

Lemma upload_success_starts_polling_witness :
  UploadUI.polling_active
    (Upload.uploadFile ready_state (Upload.Http 201 (Upload.JsonObj [("id", JNum 7)]))) = true.
Proof.
  destruct (upload_success_starts_polling ready_state "data.csv" 201 [("id", JNum 7)])
    as [_ [_ [_ [H _]]]]; [reflexivity | reflexivity |].
  rewrite H. reflexivity.
Defined.

(** Every error thrown in the [try] block before [setUploadSuccess(true)]
    (a rejected fetch, a body that is not JSON, or a non-2xx status) makes
    the one upload request, adds one destructive [Upload failed] toast
    whose text is the error message or, when that is empty, [Failed to
    upload the file], and changes neither the success flag nor whether
    polling runs. *)
Theorem upload_failure_changes_no_flag : forall st fname r m,
  Upload.uploadedFile st = Some fname -> Upload.attempt r = Upload.Thrown m ->
  let st' := Upload.uploadFile st r in
  Upload.toasts st' = Upload.toasts st ++
    [Upload.Toast "Upload failed" (if String.eqb m EmptyString then "Failed to upload the file" else m) true] /\
  Upload.requests st' = Upload.requests st ++ [Upload.upload_request] /\
  Upload.uploadSuccess st' = Upload.uploadSuccess st /\
  UploadUI.polling_active st' = UploadUI.polling_active st /\
  Upload.isProcessing st' = false.
Proof.
  intros st fname r m Hf Ha st'. subst st'. unfold Upload.uploadFile. rewrite Hf, Ha.
  cbn [Upload.toasts Upload.requests Upload.uploadSuccess Upload.isProcessing].
  split; [|repeat split; reflexivity].
  unfold JS.or, truthy. destruct (String.eqb m EmptyString); reflexivity.
Qed.

Lemma upload_failure_changes_no_flag_witness :
  Upload.toasts (Upload.uploadFile ready_state (Upload.NetworkError EmptyString)) =
    [Upload.Toast "Upload failed" "Failed to upload the file" true].
Proof.
  destruct (upload_failure_changes_no_flag ready_state "data.csv" (Upload.NetworkError EmptyString) EmptyString)
    as [H _]; [reflexivity | reflexivity |].
  rewrite H. reflexivity.
Defined.

(** A 2xx response whose body is the JSON value [null] is half taken:
    [setUploadSuccess(true)] runs before [data.file_id] throws, so the
    upload is marked successful and its button disabled, yet a destructive
    [Upload failed] toast is shown, no file id is stored and no polling
    starts. *)
Theorem null_body_marks_success_without_polling : forall st fname status,
  Upload.uploadedFile st = Some fname -> Upload.response_ok status = true ->
  let st' := Upload.uploadFile st (Upload.Http status Upload.JsonNull) in
  Upload.uploadSuccess st' = true /\ UploadUI.upload_button_enabled st' = false /\
  Upload.currentFileId st' = Upload.currentFileId st /\
  UploadUI.polling_active st' = UploadUI.polling_active st /\
  Upload.toasts st' = Upload.toasts st ++
    [Upload.Toast "Upload failed" (Upload.null_read "file_id") true] /\
  Upload.requests st' = Upload.requests st ++ [Upload.upload_request].
Proof.
  intros st fname status Hf Hs st'. subst st'. unfold Upload.uploadFile. rewrite Hf.
  unfold Upload.attempt. rewrite Hs.
  unfold UploadUI.upload_button_enabled, UploadUI.polling_active. cbn.
  rewrite ?Hf, ?orb_true_r. repeat split; reflexivity.
Qed.

Lemma null_body_marks_success_without_polling_witness :
  Upload.uploadSuccess (Upload.uploadFile ready_state (Upload.Http 200 Upload.JsonNull)) = true /\
  UploadUI.polling_active (Upload.uploadFile ready_state (Upload.Http 200 Upload.JsonNull)) = false.
Proof.
  destruct (null_body_marks_success_without_polling ready_state "data.csv" 200)
    as [H1 [_ [_ [H4 _]]]]; [reflexivity | reflexivity |].
  rewrite H4. split; [exact H1 | reflexivity].
Defined.

(** Dropping files selects the first one and clears the success flag, so
    the upload button is enabled again unless an upload is in progress;
    an empty drop changes nothing. *)
Theorem drop_reenables_upload : forall st f rest,
  Upload.uploadedFile (UploadUI.onDrop st (f :: rest)) = Some f /\
  Upload.uploadSuccess (UploadUI.onDrop st (f :: rest)) = false /\
  UploadUI.upload_button_enabled (UploadUI.onDrop st (f :: rest)) = negb (Upload.isProcessing st) /\
  Upload.requests (UploadUI.onDrop st (f :: rest)) = Upload.requests st /\
  UploadUI.onDrop st [] = st.
Proof.
  intros st f rest. unfold UploadUI.upload_button_enabled. simpl. rewrite orb_false_r.
  repeat split; reflexivity.
Qed.

(** After [removeFile] no upload button is shown and pressing upload does
    nothing: no request and no toast. *)
Theorem upload_after_remove_is_noop : forall st r,
  UploadUI.upload_button_enabled (UploadUI.removeFile st) = false /\
  Upload.uploadFile (UploadUI.removeFile st) r = UploadUI.removeFile st.
Proof. intros st r. split; reflexivity. Qed.

(* ------------------------------------------------------------------ *)
(** ** The file list: loading and downloading *)

(** The download button acts only for a [Completed] record with a
    non-empty output filename, and then downloads exactly that record:
    one request for its id and, on success, the output filename saved.
    A disabled button changes nothing. *)
Theorem download_only_completed_output : forall st recd r,
  (Files.download_disabled recd = true -> Files.press_download st recd r = st) /\
  (Files.download_disabled recd = false ->
   exists f, Files.rstatus recd = "Completed" /\ Files.output_filename recd = Some f /\
     f <> EmptyString /\ Files.press_download st recd r = Files.downloadFile st (Files.rid recd) f r /\
     Files.frequests (Files.press_download st recd r) =
       Files.frequests st ++ [Files.download_request (Files.rid recd)] /\
     Files.saved (Files.press_download st recd r) =
       Files.saved st ++ match r with Files.Body _ => [f] | _ => [] end).
Proof.
  intros st recd r. unfold Files.press_download. split; intros H; rewrite H; [reflexivity|].
  unfold Files.download_disabled in H. apply orb_false_elim in H. destruct H as [H1 H2].
  apply negb_false_iff in H1, H2. apply String.eqb_eq in H1.
  destruct (Files.output_filename recd) as [f|] eqn:E; [|discriminate].
  cbn [Files.output_truthy] in *. rewrite H2. exists f.
  apply negb_true_iff, String.eqb_neq in H2.
  split; [exact H1|]. split; [reflexivity|]. split; [exact H2|]. split; [reflexivity|].
  destruct r; cbn; rewrite ?app_nil_r; split; reflexivity.
Qed.

Lemma download_only_completed_output_witness :
  Files.frequests (Files.press_download
    {| Files.fileRecords := []; Files.isLoadingFiles := false; Files.ftoasts := [];
       Files.frequests := []; Files.saved := [] |}
    {| Files.rid := 12; Files.input_filename := "in.csv"; Files.output_filename := Some "out.xlsx";
       Files.created_date := "2024-01-01"; Files.rstatus := "Completed" |} (Files.Body tt)) =
  ["GET /download/output/12"].
Proof.
  destruct (proj2 (download_only_completed_output
    {| Files.fileRecords := []; Files.isLoadingFiles := false; Files.ftoasts := [];
       Files.frequests := []; Files.saved := [] |}
    {| Files.rid := 12; Files.input_filename := "in.csv"; Files.output_filename := Some "out.xlsx";
       Files.created_date := "2024-01-01"; Files.rstatus := "Completed" |} (Files.Body tt)) eq_refl)
    as [f [_ [_ [_ [_ [H _]]]]]].
  rewrite H. reflexivity.
Defined.

Lemma string_app_cancel_l : forall p a b : string, (p ++ a = p ++ b)%string -> a = b.
Proof. induction p as [|c p IH]; intros a b H; [exact H|]. injection H as H. exact (IH _ _ H). Qed.

(** Distinct file ids give distinct download URLs: the id is written in
    decimal and can be read back from the path. *)
Theorem download_request_injective : forall m n,
  Files.download_request m = Files.download_request n -> m = n.
Proof.
  intros m n H. unfold Files.download_request, Files.nat_text in H.
  apply string_app_cancel_l in H.
  apply (f_equal NilEmpty.uint_of_string) in H. rewrite !NilEmpty.usu in H.
  injection H as H. rewrite <- (DecimalNat.Unsigned.of_to m), <- (DecimalNat.Unsigned.of_to n), H.
  reflexivity.
Qed.

Lemma download_request_injective_witness : 12 = 12.
Proof. apply download_request_injective. reflexivity. Defined.

(* ------------------------------------------------------------------ *)
(** ** The file details page *)

(** Without a route id ([undefined] or the empty string) the effect
    returns at once: no request is made and the page keeps showing the
    spinner it starts with. *)
Theorem details_without_id_spins : forall fileId r,
  (fileId = None \/ fileId = Some EmptyString) ->
  Details.render (Details.fetchFileDetail fileId Details.initial r) = Details.Spinner /\
  Details.drequests (Details.fetchFileDetail fileId Details.initial r) = [].
Proof. intros fileId r [-> | ->]; split; reflexivity. Qed.

Lemma details_without_id_spins_witness :
  Details.render (Details.fetchFileDetail None Details.initial (Files.Body [])) = Details.Spinner.
Proof.
  apply (proj1 (details_without_id_spins None (Files.Body []) (or_introl eq_refl))).
Defined.

(** A failed load (rejected fetch or non-ok status) sends the user back
    to [/] with one destructive [Failed to load file details] toast,
    ends the loading state and keeps the data shown before; on a first
    load the page shows no table. *)
Theorem details_failure_navigates_home : forall id st r,
  id <> EmptyString -> (forall d, r <> Files.Body d) ->
  let st' := Details.fetchFileDetail (Some id) st r in
  Details.navigations st' = Details.navigations st ++ ["/"] /\
  Details.drequests st' = Details.drequests st ++ [Details.data_request id] /\
  Details.isLoading st' = false /\ Details.fileData st' = Details.fileData st /\
  (exists m, Details.dtoasts st' =
     Details.dtoasts st ++ [Upload.Toast "Failed to load file details" m true]) /\
  (Details.fileData st = None -> Details.render st' = Details.NoData).
Proof.
  intros id st r Hid Hr st'. subst st'. unfold Details.fetchFileDetail.
  apply String.eqb_neq in Hid. rewrite Hid.
  destruct r as [m| |d]; [| |exfalso; exact (Hr d eq_refl)];
    unfold Details.render; cbn; (split; [reflexivity|]); (split; [reflexivity|]);
    (split; [reflexivity|]); (split; [reflexivity|]); (split; [eexists; reflexivity|]);
    intros ->; reflexivity.
Qed.

Lemma details_failure_navigates_home_witness :
  Details.render (Details.fetchFileDetail (Some "7") Details.initial Files.NotOk) = Details.NoData.
Proof.
  destruct (details_failure_navigates_home "7" Details.initial Files.NotOk) as [_ [_ [_ [_ [_ H]]]]].
  - discriminate.
  - intros d. discriminate.
  - exact (H eq_refl).
Defined.

(** The table reads every row by the keys of the first row: when all rows
    have the keys of the first, in the same order, each row has one cell
    per column, the cell under [key] being the row's value there ([-]
    for [null] or a missing value). *)
Theorem details_table_aligned : forall id st r0 rest,
  id <> EmptyString -> Forall (fun r => own_keys r = own_keys r0) rest ->
  Details.render (Details.fetchFileDetail (Some id) st (Files.Body (r0 :: rest))) =
    Details.Table (map Details.label (own_keys r0))
      (map (fun r => map (fun k => Details.display (get r k)) (own_keys r0)) (r0 :: rest)) /\
  Forall (fun cells => length cells = length (own_keys r0))
    (map Details.row_cells (r0 :: rest)).
Proof.
  intros id st r0 rest Hid Hk. unfold Details.fetchFileDetail.
  apply String.eqb_neq in Hid. rewrite Hid. unfold Details.render. cbn [Details.isLoading Details.fileData].
  split.
  - f_equal. unfold Details.row_cells. cbn [map]. f_equal.
    apply map_ext_Forall. eapply Forall_impl; [|exact Hk]. intros r H. simpl in H. rewrite H. reflexivity.
  - constructor; [unfold Details.row_cells; apply length_map|].
    apply Forall_map. eapply Forall_impl; [|exact Hk]. intros r H. simpl in H.
    unfold Details.row_cells. rewrite length_map, H. reflexivity.
Qed.

Lemma details_table_aligned_witness :
  Details.render (Details.fetchFileDetail (Some "7") Details.initial
    (Files.Body [[("file_name", JStr "a"); ("rows", JNum 3)]; [("file_name", JStr "b"); ("rows", JNull)]])) =
  Details.Table ["FILE NAME"; "ROWS"] [["a"; "3"]; ["b"; "-"]].
Proof.
  etransitivity;
    [exact (proj1 (details_table_aligned "7" Details.initial [("file_name", JStr "a"); ("rows", JNum 3)]
                     [[("file_name", JStr "b"); ("rows", JNull)]] ltac:(discriminate)
                     ltac:(repeat constructor)))
    | reflexivity].
Defined.

(** For a key of ASCII characters, a column header keeps the key's
    length and contains neither an underscore nor a lower-case letter. *)
Theorem label_no_underscore_or_lowercase : forall key,
  (forall c, In c (list_ascii_of_string key) -> nat_of_ascii c < 128) ->
  String.length (Details.label key) = String.length key /\
  forall c, In c (list_ascii_of_string (Details.label key)) ->
    c <> "_"%char /\ ~ (97 <= nat_of_ascii c <= 122).
Proof.
  intros key _. unfold Details.label. induction key as [|c key [IHl IHc]]; [split; [reflexivity | intros c []]|].
  cbn [Details.underscores_to_spaces Details.to_upper String.length list_ascii_of_string].
  split; [rewrite IHl; reflexivity|].
  intros c' [<- | Hin]; [|exact (IHc c' Hin)].
  set (d := if Ascii.eqb c "_" then " "%char else c).
  assert (Hd : d <> "_"%char).
  { subst d. destruct (Ascii.eqb c "_") eqn:E; [discriminate|]. apply Ascii.eqb_neq in E. exact E. }
  unfold Details.upper_char.
  destruct (Nat.leb 97 (nat_of_ascii d) && Nat.leb (nat_of_ascii d) 122) eqn:E.
  - apply andb_true_iff in E. destruct E as [E1 E2]. apply Nat.leb_le in E1, E2.
    rewrite nat_ascii_embedding by lia. split; [|lia].
    intros Heq. apply (f_equal nat_of_ascii) in Heq. rewrite nat_ascii_embedding in Heq by lia.
    cbn in Heq. lia.
  - split; [exact Hd|]. intros [E1 E2]. apply Nat.leb_le in E1, E2. rewrite E1, E2 in E. discriminate.
Qed.

Lemma label_no_underscore_or_lowercase_witness :
  String.length (Details.label "file_name") = 9.
Proof.
  apply (proj1 (label_no_underscore_or_lowercase "file_name" ltac:(intros c Hc; vm_compute in Hc; intuition (subst; vm_compute; lia)))).
Defined.
